(** * JFiComm: serial transport, framing and dispatch

    A shallow embedding of [src/jfi_comm/src/jfi_comm.cpp] (class [JFiComm]):
    the port handle ([openPort], [closePort], [writeData]), the transport
    facade ([init], [send]) and the receiver loop ([recvMavLoop]).

    The object's fields, the operating system's descriptor table and the
    events the code produces (system calls, log lines, callback invocations,
    lock operations) are threaded through a small state monad.  The frame
    codec the file calls into ([mavlink_msg_jfi_encode],
    [mavlink_msg_to_send_buffer], [mavlink_parse_char],
    [mavlink_msg_jfi_decode]) lives in generated headers that are not part of
    the translated sources; it is modelled separately and marked as such. *)

From Stdlib Require Import String ZArith List Bool Lia.
Import ListNotations.

Local Open Scope string_scope.
Local Open Scope list_scope.
Local Open Scope Z_scope.

(** ** Bytes *)

(** Conversion of an integer to [uint8_t]. *)
Definition uint8 (x : Z) : Z := x mod 256.

(** ** Wire protocol parameters

    Constants of the generated protocol headers.  They are not in the
    translated sources, so the development is parametric in them. *)
Class Dialect := {
  (** frame start marker *)
  MAVLINK_STX : Z;
  (** initial value of the rolling checksum *)
  crc_init : Z;
  (** [crc_accumulate byte crc]: one step of the rolling checksum *)
  crc_accumulate : Z -> Z -> Z;
  (** per message-id seed folded into the checksum after the payload *)
  crc_extra : Z -> Z;
  (** message-id of the one recognised message type *)
  MAVLINK_MSG_ID_JFI : Z;
  (** [sizeof(jfi_msg.data)]: the frame's maximum payload capacity *)
  JFI_DATA_LEN : nat
}.

(** ** Frames *)

(** [mavlink_message_t]: one frame of the wire protocol. *)
Record mavlink_message_t := {
  msg_checksum : Z;
  msg_len : Z;
  msg_seq : Z;
  msg_sysid : Z;
  msg_compid : Z;
  msgid : Z;
  msg_payload : list Z
}.

(** [mavlink_jfi_t]: the recognised message, as [send] and [recvMavLoop] use
    it: fields [tid], [len] and the fixed-capacity array [data]. *)
Record mavlink_jfi_t := {
  jfi_tid : Z;
  jfi_len : Z;
  jfi_data : list Z
}.

Definition crc_accumulate_buffer `{Dialect} (bytes : list Z) (crc : Z) : Z :=
  fold_left (fun acc b => crc_accumulate b acc) bytes crc.

Inductive mavlink_parse_state_t :=
| WaitingForStart
| ReadingHeader
| ReadingPayload
| VerifyingChecksum.

(** Per-channel codec state: the parser's cursor and in-progress frame, and
    the sequence counter stamped on outbound frames. *)
Record mavlink_status_t := {
  parse_state : mavlink_parse_state_t;
  packet_idx : nat;
  rxmsg : mavlink_message_t;
  current_tx_seq : Z
}.

Definition empty_message : mavlink_message_t :=
  {| msg_checksum := 0; msg_len := 0; msg_seq := 0; msg_sysid := 0;
     msg_compid := 0; msgid := 0; msg_payload := [] |}.

Definition channel_init : mavlink_status_t :=
  {| parse_state := WaitingForStart; packet_idx := 0;
     rxmsg := empty_message; current_tx_seq := 0 |}.

Section Codec.
Context `{Dialect}.

(** Modelled from the spec: [mavlink_msg_jfi_encode] (generated header, not
    in the sources).  Section 4.2: encode "stamps the frame's own
    message-type identifier, truncates payload to the frame's maximum,
    fills identity fields, computes and appends checksum/framing bytes";
    section 6: the frame carries "a tag (1 byte), a payload length, and a
    payload buffer (fixed maximum capacity)".  The frame payload is the tag,
    the length field and the data buffer, in that order; the checksum runs
    over the header fields after the start marker and the payload. *)
Definition mavlink_msg_jfi_encode (system_id component_id : Z)
    (tx_seq : Z) (jfi : mavlink_jfi_t) : mavlink_message_t :=
  let pl := jfi_tid jfi :: jfi_len jfi :: firstn JFI_DATA_LEN (jfi_data jfi) in
  let len := uint8 (Z.of_nat (List.length pl)) in
  let hdr := [len; tx_seq; system_id; component_id; MAVLINK_MSG_ID_JFI] in
  let crc := crc_accumulate_buffer (hdr ++ pl) crc_init in
  {| msg_checksum := crc_accumulate (crc_extra MAVLINK_MSG_ID_JFI) crc;
     msg_len := len;
     msg_seq := tx_seq;
     msg_sysid := system_id;
     msg_compid := component_id;
     msgid := MAVLINK_MSG_ID_JFI;
     msg_payload := pl |}.

(** Modelled from the spec: [mavlink_msg_to_send_buffer] (protocol header,
    not in the sources): the frame as bytes, start marker first, the two
    checksum bytes last. *)
Definition mavlink_msg_to_send_buffer (m : mavlink_message_t) : list Z :=
  [MAVLINK_STX; msg_len m; msg_seq m; msg_sysid m; msg_compid m; msgid m]
  ++ msg_payload m
  ++ [Z.land (msg_checksum m) 255; uint8 (Z.shiftr (msg_checksum m) 8)].

Definition set_parse (st : mavlink_parse_state_t) (idx : nat)
    (m : mavlink_message_t) (ch : mavlink_status_t) : mavlink_status_t :=
  {| parse_state := st; packet_idx := idx; rxmsg := m;
     current_tx_seq := current_tx_seq ch |}.

Definition resync (ch : mavlink_status_t) : mavlink_status_t :=
  set_parse WaitingForStart 0 (rxmsg ch) ch.

Definition rx_accumulate (c : Z) (m : mavlink_message_t) : Z :=
  crc_accumulate c (msg_checksum m).

(** The in-progress frame once its last payload byte (or, for an empty
    payload, its message-id) has been read: the per-message seed is folded
    into the rolling checksum. *)
Definition rx_seal (m : mavlink_message_t) : mavlink_message_t :=
  {| msg_checksum := crc_accumulate (crc_extra (msgid m)) (msg_checksum m);
     msg_len := msg_len m; msg_seq := msg_seq m; msg_sysid := msg_sysid m;
     msg_compid := msg_compid m; msgid := msgid m;
     msg_payload := msg_payload m |}.

Definition rx_header (idx : nat) (c : Z) (m : mavlink_message_t)
    : mavlink_message_t :=
  let ck := rx_accumulate c m in
  match idx with
  | 0%nat => {| msg_checksum := ck; msg_len := c; msg_seq := msg_seq m;
                msg_sysid := msg_sysid m; msg_compid := msg_compid m;
                msgid := msgid m; msg_payload := [] |}
  | 1%nat => {| msg_checksum := ck; msg_len := msg_len m; msg_seq := c;
                msg_sysid := msg_sysid m; msg_compid := msg_compid m;
                msgid := msgid m; msg_payload := [] |}
  | 2%nat => {| msg_checksum := ck; msg_len := msg_len m; msg_seq := msg_seq m;
                msg_sysid := c; msg_compid := msg_compid m;
                msgid := msgid m; msg_payload := [] |}
  | 3%nat => {| msg_checksum := ck; msg_len := msg_len m; msg_seq := msg_seq m;
                msg_sysid := msg_sysid m; msg_compid := c;
                msgid := msgid m; msg_payload := [] |}
  | _ => {| msg_checksum := ck; msg_len := msg_len m; msg_seq := msg_seq m;
            msg_sysid := msg_sysid m; msg_compid := msg_compid m;
            msgid := c; msg_payload := [] |}
  end.

Definition rx_payload (c : Z) (m : mavlink_message_t) : mavlink_message_t :=
  {| msg_checksum := rx_accumulate c m; msg_len := msg_len m;
     msg_seq := msg_seq m; msg_sysid := msg_sysid m;
     msg_compid := msg_compid m; msgid := msgid m;
     msg_payload := msg_payload m ++ [c] |}.

(** Modelled from the spec: [mavlink_parse_char] (protocol header, not in
    the sources).  Section 4.2: "incremental, byte-at-a-time feed function:
    parse(byte) -> Option<Frame>" that "validates the wire structure (length
    field, message-id field, checksum)", "a byte-stream state machine with
    states {waiting-for-start, reading-header, reading-payload,
    verifying-checksum} collapsing back to waiting-for-start on any
    validation failure". *)
Definition mavlink_parse_char (c : Z) (ch : mavlink_status_t)
    : mavlink_status_t * option mavlink_message_t :=
  match parse_state ch with
  | WaitingForStart =>
      if c =? MAVLINK_STX then
        (set_parse ReadingHeader 0
           {| msg_checksum := crc_init; msg_len := 0; msg_seq := 0;
              msg_sysid := 0; msg_compid := 0; msgid := 0;
              msg_payload := [] |} ch, None)
      else (ch, None)
  | ReadingHeader =>
      let m := rx_header (packet_idx ch) c (rxmsg ch) in
      if (packet_idx ch <? 4)%nat then
        (set_parse ReadingHeader (S (packet_idx ch)) m ch, None)
      else if msg_len m =? 0 then
        (set_parse VerifyingChecksum 0 (rx_seal m) ch, None)
      else
        (set_parse ReadingPayload 0 m ch, None)
  | ReadingPayload =>
      let m := rx_payload c (rxmsg ch) in
      if Z.of_nat (S (packet_idx ch)) =? msg_len m then
        (set_parse VerifyingChecksum 0 (rx_seal m) ch, None)
      else
        (set_parse ReadingPayload (S (packet_idx ch)) m ch, None)
  | VerifyingChecksum =>
      match packet_idx ch with
      | 0%nat =>
          if c =? Z.land (msg_checksum (rxmsg ch)) 255 then
            (set_parse VerifyingChecksum 1 (rxmsg ch) ch, None)
          else (resync ch, None)
      | _ =>
          if c =? uint8 (Z.shiftr (msg_checksum (rxmsg ch)) 8) then
            (resync ch, Some (rxmsg ch))
          else (resync ch, None)
      end
  end.

(** Modelled from the spec: [mavlink_msg_jfi_decode] (generated header, not
    in the sources): the inverse field layout of the encoder; a payload
    shorter than the message is read as zero-filled. *)
Definition mavlink_msg_jfi_decode (m : mavlink_message_t) : mavlink_jfi_t :=
  {| jfi_tid := nth 0 (msg_payload m) 0;
     jfi_len := nth 1 (msg_payload m) 0;
     jfi_data := firstn JFI_DATA_LEN
                   (skipn 2 (msg_payload m) ++ repeat 0 JFI_DATA_LEN) |}.

(** The frames a byte sequence makes the parser emit, in order. *)
Fixpoint parse_stream (rx : list Z) (ch : mavlink_status_t)
    : mavlink_status_t * list mavlink_message_t :=
  match rx with
  | [] => (ch, [])
  | c :: rest =>
      let '(ch1, r) := mavlink_parse_char c ch in
      let '(ch2, ms) := parse_stream rest ch1 in
      (ch2, match r with Some m => m :: ms | None => ms end)
  end.

End Codec.

(** ** Serial line settings ([<termios.h>])

    The flag and speed constants are those of the system header on Linux;
    [cfmakeraw], [cfsetispeed] and [cfsetospeed] are the C library's: the
    two speed setters record the speed and also write it into the speed
    bits of [c_cflag]. *)

Record termios := {
  c_iflag : Z;
  c_oflag : Z;
  c_cflag : Z;
  c_lflag : Z;
  c_cc_VMIN : Z;
  c_cc_VTIME : Z;
  c_ispeed : Z;
  c_ospeed : Z
}.

Definition B9600 : Z := 13.
Definition B19200 : Z := 14.
Definition B38400 : Z := 15.
Definition B57600 : Z := 4097.
Definition B115200 : Z := 4098.

Definition CSIZE : Z := 48.
Definition CS8 : Z := 48.
Definition CSTOPB : Z := 64.
Definition CREAD : Z := 128.
Definition PARENB : Z := 256.
Definition CLOCAL : Z := 2048.

Definition IGNBRK : Z := 1.
Definition BRKINT : Z := 2.
Definition PARMRK : Z := 8.
Definition ISTRIP : Z := 32.
Definition INLCR : Z := 64.
Definition IGNCR : Z := 128.
Definition ICRNL : Z := 256.
Definition IXON : Z := 1024.
Definition OPOST : Z := 1.
Definition ISIG : Z := 1.
Definition ICANON : Z := 2.
Definition ECHO : Z := 8.
Definition ECHONL : Z := 64.
Definition IEXTEN : Z := 32768.

(** The line rate, in bits per second, a speed constant stands for. *)
Definition speed_bps (speed : Z) : option Z :=
  if speed =? B9600 then Some 9600
  else if speed =? B19200 then Some 19200
  else if speed =? B38400 then Some 38400
  else if speed =? B57600 then Some 57600
  else if speed =? B115200 then Some 115200
  else None.

Definition set_cflag (v : Z) (t : termios) : termios :=
  {| c_iflag := c_iflag t; c_oflag := c_oflag t; c_cflag := v;
     c_lflag := c_lflag t; c_cc_VMIN := c_cc_VMIN t;
     c_cc_VTIME := c_cc_VTIME t; c_ispeed := c_ispeed t;
     c_ospeed := c_ospeed t |}.

Definition clear_bits (x mask : Z) : Z := Z.land x (Z.lnot mask).

(** The speed bits of [c_cflag], and the input-speed-zero bit of [c_iflag]. *)
Definition CBAUD : Z := 4111.
Definition CBAUDEX : Z := 4096.
Definition IBAUD0 : Z := 2147483648.

(** [cfsetospeed(&t, speed)], for a speed constant the library accepts (the
    five [openPort] uses are): [c_ospeed] is set and the speed bits of
    [c_cflag] are replaced by the constant. *)
Definition cfsetospeed (t : termios) (speed : Z) : termios :=
  {| c_iflag := c_iflag t; c_oflag := c_oflag t;
     c_cflag := Z.lor (clear_bits (c_cflag t) (Z.lor CBAUD CBAUDEX)) speed;
     c_lflag := c_lflag t; c_cc_VMIN := c_cc_VMIN t;
     c_cc_VTIME := c_cc_VTIME t; c_ispeed := c_ispeed t;
     c_ospeed := speed |}.

(** [cfsetispeed(&t, speed)], likewise: [c_ispeed] is set; a speed of zero
    only sets [IBAUD0], any other clears it and replaces the speed bits of
    [c_cflag]. *)
Definition cfsetispeed (t : termios) (speed : Z) : termios :=
  if speed =? 0 then
    {| c_iflag := Z.lor (c_iflag t) IBAUD0; c_oflag := c_oflag t;
       c_cflag := c_cflag t;
       c_lflag := c_lflag t; c_cc_VMIN := c_cc_VMIN t;
       c_cc_VTIME := c_cc_VTIME t; c_ispeed := speed;
       c_ospeed := c_ospeed t |}
  else
    {| c_iflag := clear_bits (c_iflag t) IBAUD0; c_oflag := c_oflag t;
       c_cflag := Z.lor (clear_bits (c_cflag t) (Z.lor CBAUD CBAUDEX)) speed;
       c_lflag := c_lflag t; c_cc_VMIN := c_cc_VMIN t;
       c_cc_VTIME := c_cc_VTIME t; c_ispeed := speed;
       c_ospeed := c_ospeed t |}.

Definition cfmakeraw (t : termios) : termios :=
  {| c_iflag :=
       clear_bits (c_iflag t)
         (Z.lor IGNBRK (Z.lor BRKINT (Z.lor PARMRK (Z.lor ISTRIP
            (Z.lor INLCR (Z.lor IGNCR (Z.lor ICRNL IXON)))))));
     c_oflag := clear_bits (c_oflag t) OPOST;
     c_cflag := Z.lor (clear_bits (c_cflag t) (Z.lor CSIZE PARENB)) CS8;
     c_lflag :=
       clear_bits (c_lflag t)
         (Z.lor ECHO (Z.lor ECHONL (Z.lor ICANON (Z.lor ISIG IEXTEN))));
     c_cc_VMIN := 1;
     c_cc_VTIME := 0;
     c_ispeed := c_ispeed t;
     c_ospeed := c_ospeed t |}.

(** ** Events and the operating system *)

Inductive severity := INFO | WARN | ERROR.

(** A registered receive handler ([std::function]); invoking it is recorded
    as an event. *)
Definition callback := nat.

Inductive event :=
| EvLock
| EvUnlock
| EvOpen (path : string) (ret : Z)
| EvTcgetattr (fd : Z) (ok : bool)
| EvTcsetattr (fd : Z) (tty : termios) (ok : bool)
| EvTcflush (fd : Z)
| EvClose (fd : Z)
| EvRead (fd : Z) (n : Z)
| EvWrite (fd : Z) (bytes : list Z) (ret : Z)
| EvLog (sev : severity) (text : string)
| EvSleep (ms : Z)
| EvCallback (cb : callback) (tid : Z) (data : list Z)
| EvThreadStart
| EvThreadJoin.

(** How the operating system answers the calls the code makes.  [k_open]
    gives the descriptor [::open] returns for a path, or [None] when it fails
    (the call then returns -1). *)
Class Kernel := {
  k_open : string -> option nat;
  k_tcgetattr : Z -> option termios;
  k_tcsetattr : Z -> termios -> bool;
  k_write : Z -> list Z -> Z
}.

(** ** The object and its environment *)

(** The data members of [JFiComm].  [mav_recv_thread_] records whether the
    thread object is joinable. *)
Record JFiComm := {
  fd_ : Z;
  running_ : bool;
  system_id_ : Z;
  component_id_ : Z;
  receive_callback_ : option callback;
  mav_recv_thread_ : bool
}.

(** [JFiComm::JFiComm()] *)
Definition JFiComm_new : JFiComm :=
  {| fd_ := -1; running_ := false; system_id_ := 1; component_id_ := 1;
     receive_callback_ := None; mav_recv_thread_ := false |}.

(** The object together with what surrounds it: the descriptors the process
    holds, the results the next [::read] calls will give ([None] is a
    failure), the codec's channel state, whether [std::terminate] was
    called, and the events so far. *)
Record machine := {
  obj : JFiComm;
  open_fds : list Z;
  pending_reads : list (option (list Z));
  chan0 : mavlink_status_t;
  terminated : bool;
  trace : list event
}.

Definition machine_new : machine :=
  {| obj := JFiComm_new; open_fds := []; pending_reads := [];
     chan0 := channel_init; terminated := false; trace := [] |}.

Definition with_obj (o : JFiComm) (s : machine) : machine :=
  {| obj := o; open_fds := open_fds s; pending_reads := pending_reads s;
     chan0 := chan0 s; terminated := terminated s; trace := trace s |}.

Definition with_open_fds (l : list Z) (s : machine) : machine :=
  {| obj := obj s; open_fds := l; pending_reads := pending_reads s;
     chan0 := chan0 s; terminated := terminated s; trace := trace s |}.

Definition with_pending_reads (q : list (option (list Z))) (s : machine)
    : machine :=
  {| obj := obj s; open_fds := open_fds s; pending_reads := q;
     chan0 := chan0 s; terminated := terminated s; trace := trace s |}.

Definition with_chan0 (c : mavlink_status_t) (s : machine) : machine :=
  {| obj := obj s; open_fds := open_fds s; pending_reads := pending_reads s;
     chan0 := c; terminated := terminated s; trace := trace s |}.

Definition with_terminated (b : bool) (s : machine) : machine :=
  {| obj := obj s; open_fds := open_fds s; pending_reads := pending_reads s;
     chan0 := chan0 s; terminated := b; trace := trace s |}.

Definition with_trace (t : list event) (s : machine) : machine :=
  {| obj := obj s; open_fds := open_fds s; pending_reads := pending_reads s;
     chan0 := chan0 s; terminated := terminated s; trace := t |}.

(** What the memory that follows the array [data] of the receiver loop's
    local [jfi_msg_] holds, byte by byte from the array's end on.  The loop
    reads there when a frame's [len] exceeds the array's size; what it
    finds is not determined by the program and can differ from one frame
    to the next, so it is a function of the machine as it is at that
    point. *)
Class Overread := {
  memory_after_data : machine -> nat -> Z
}.

(** The memory after the data array as [on_message] finds it when it is
    entered in state [s]: the read comes after the "RECV" line. *)
Definition memory_seen `{Overread} (s : machine) : nat -> Z :=
  memory_after_data (with_trace (trace s ++ [EvLog INFO "RECV"]) s).

(** [std::vector<uint8_t>(p, p + n)] for [p] the start of the array [arr]:
    the [n] bytes from there on, those past the array's end taken from the
    memory [mem] that follows it. *)
Definition read_past (arr : list Z) (mem : nat -> Z) (n : nat) : list Z :=
  firstn n (arr ++ map mem (seq 0 (n - List.length arr))).

(** ** The monad *)

Definition M (A : Type) : Type := machine -> A * machine.

Definition ret {A} (a : A) : M A := fun s => (a, s).

Definition bind {A B} (m : M A) (k : A -> M B) : M B :=
  fun s => let '(a, s1) := m s in k a s1.

Declare Scope jfi_scope.
Delimit Scope jfi_scope with jfi.
Notation "x <- c1 ;; c2" := (bind c1 (fun x => c2))
  (at level 61, c1 at next level, right associativity) : jfi_scope.
Notation "c1 ;; c2" := (bind c1 (fun _ => c2))
  (at level 61, right associativity) : jfi_scope.
Local Open Scope jfi_scope.

Definition emit (e : event) : M unit :=
  fun s => (tt, with_trace (trace s ++ [e]) s).

Definition RCLCPP_INFO (text : string) : M unit := emit (EvLog INFO text).
Definition RCLCPP_WARN (text : string) : M unit := emit (EvLog WARN text).
Definition RCLCPP_ERROR (text : string) : M unit := emit (EvLog ERROR text).

Definition sleep_for (ms : Z) : M unit := emit (EvSleep ms).

(** [std::lock_guard<std::mutex> lock(fd_mutex_)] around a block: the mutex is
    taken on entry and released on every way out. *)
Definition lock_guard {A} (body : M A) : M A :=
  emit EvLock ;; r <- body ;; emit EvUnlock ;; ret r.

Definition get_fd : M Z := fun s => (fd_ (obj s), s).

Definition set_fd (v : Z) : M unit :=
  fun s =>
    let o := obj s in
    (tt, with_obj {| fd_ := v; running_ := running_ o;
                     system_id_ := system_id_ o;
                     component_id_ := component_id_ o;
                     receive_callback_ := receive_callback_ o;
                     mav_recv_thread_ := mav_recv_thread_ o |} s).

Definition set_running (v : bool) : M unit :=
  fun s =>
    let o := obj s in
    (tt, with_obj {| fd_ := fd_ o; running_ := v;
                     system_id_ := system_id_ o;
                     component_id_ := component_id_ o;
                     receive_callback_ := receive_callback_ o;
                     mav_recv_thread_ := mav_recv_thread_ o |} s).

Definition set_identity (cb : option callback) (system_id component_id : Z)
    : M unit :=
  fun s =>
    let o := obj s in
    (tt, with_obj {| fd_ := fd_ o; running_ := running_ o;
                     system_id_ := system_id;
                     component_id_ := component_id;
                     receive_callback_ := cb;
                     mav_recv_thread_ := mav_recv_thread_ o |} s).

Definition set_thread (v : bool) : M unit :=
  fun s =>
    let o := obj s in
    (tt, with_obj {| fd_ := fd_ o; running_ := running_ o;
                     system_id_ := system_id_ o;
                     component_id_ := component_id_ o;
                     receive_callback_ := receive_callback_ o;
                     mav_recv_thread_ := v |} s).

(** Removes one entry of a descriptor from the table. *)
Fixpoint release_fd (fd : Z) (l : list Z) : list Z :=
  match l with
  | [] => []
  | x :: r => if x =? fd then r else x :: release_fd fd r
  end.

Definition holds_fd (fd : Z) (l : list Z) : bool :=
  existsb (Z.eqb fd) l.

Section Syscalls.
Context `{Kernel}.

Definition sys_open (path : string) : M Z :=
  fun s =>
    match k_open path with
    | Some n =>
        let fd := Z.of_nat n in
        (fd, with_trace (trace s ++ [EvOpen path fd])
               (with_open_fds (fd :: open_fds s) s))
    | None => (-1, with_trace (trace s ++ [EvOpen path (-1)]) s)
    end.

Definition sys_close (fd : Z) : M unit :=
  fun s =>
    (tt, with_trace (trace s ++ [EvClose fd])
           (with_open_fds (release_fd fd (open_fds s)) s)).

Definition sys_tcgetattr (fd : Z) : M (option termios) :=
  fun s =>
    let r := k_tcgetattr fd in
    (r, with_trace
          (trace s ++ [EvTcgetattr fd
                         (match r with Some _ => true | None => false end)])
          s).

Definition sys_tcsetattr (fd : Z) (tty : termios) : M bool :=
  fun s =>
    let ok := k_tcsetattr fd tty in
    (ok, with_trace (trace s ++ [EvTcsetattr fd tty ok]) s).

Definition sys_tcflush (fd : Z) : M unit := emit (EvTcflush fd).

Definition sys_write (fd : Z) (bytes : list Z) : M Z :=
  fun s =>
    let n := k_write fd bytes in
    (n, with_trace (trace s ++ [EvWrite fd bytes n]) s).

(** [::read(fd, rx.data(), size)]: the count returned and the bytes stored.
    A descriptor the process does not hold makes the call fail. *)
Definition sys_read (fd : Z) (size : nat) : M (Z * list Z) :=
  fun s =>
    if holds_fd fd (open_fds s) then
      match pending_reads s with
      | [] => ((0, []), with_trace (trace s ++ [EvRead fd 0]) s)
      | None :: q =>
          ((-1, []),
           with_trace (trace s ++ [EvRead fd (-1)]) (with_pending_reads q s))
      | Some bytes :: q =>
          let got := firstn size bytes in
          let n := Z.of_nat (List.length got) in
          ((n, got),
           with_trace (trace s ++ [EvRead fd n]) (with_pending_reads q s))
      end
    else ((-1, []), with_trace (trace s ++ [EvRead fd (-1)]) s).

End Syscalls.

(** ** The methods of [JFiComm] *)

Section Methods.
Context `{Dialect} `{Kernel} `{Overread}.

(** The [switch (baud_rate)] of [openPort]. *)
Definition select_speed (baud_rate : Z) : M Z :=
  if baud_rate =? 9600 then ret B9600
  else if baud_rate =? 19200 then ret B19200
  else if baud_rate =? 38400 then ret B38400
  else if baud_rate =? 57600 then ret B57600
  else if baud_rate =? 115200 then ret B115200
  else
    RCLCPP_WARN "Unsupported baud rate: %d, defaulting to 115200" ;;
    ret B115200.

(** The line settings [openPort] computes from what [tcgetattr] gave. *)
Definition configure_tty (tty : termios) (speed : Z) : termios :=
  let tty := cfsetospeed tty speed in
  let tty := cfsetispeed tty speed in
  let tty := set_cflag (Z.lor (clear_bits (c_cflag tty) CSIZE) CS8) tty in
  let tty := set_cflag (clear_bits (c_cflag tty) PARENB) tty in
  let tty := set_cflag (clear_bits (c_cflag tty) CSTOPB) tty in
  let tty := set_cflag (Z.lor (c_cflag tty) (Z.lor CLOCAL CREAD)) tty in
  cfmakeraw tty.

(** [bool JFiComm::openPort(const std::string & port_name, int baud_rate)] *)
Definition openPort (port_name : string) (baud_rate : Z) : M bool :=
  lock_guard (
    fd <- get_fd ;;
    if 0 <=? fd then ret true
    else
      r <- sys_open port_name ;;
      set_fd r ;;
      fd <- get_fd ;;
      if fd <? 0 then
        RCLCPP_ERROR "Failed to open %s: %s" ;;
        ret false
      else
        g <- sys_tcgetattr fd ;;
        match g with
        | None =>
            RCLCPP_ERROR "tcgetattr failed: %s" ;;
            sys_close fd ;;
            set_fd (-1) ;;
            ret false
        | Some tty =>
            speed <- select_speed baud_rate ;;
            ok <- sys_tcsetattr fd (configure_tty tty speed) ;;
            if ok then
              sys_tcflush fd ;;
              RCLCPP_INFO "Opened port %s at %d bps" ;;
              ret true
            else
              RCLCPP_ERROR "tcsetattr failed: %s" ;;
              sys_close fd ;;
              set_fd (-1) ;;
              ret false
        end).

(** [void JFiComm::closePort()] *)
Definition closePort : M unit :=
  lock_guard (
    fd <- get_fd ;;
    if 0 <=? fd then
      sys_close fd ;;
      set_fd (-1) ;;
      RCLCPP_INFO "Port closed"
    else ret tt).

(** [void JFiComm::writeData(const std::vector<uint8_t> & data)] *)
Definition writeData (data : list Z) : M unit :=
  lock_guard (
    fd <- get_fd ;;
    if fd <? 0 then ret tt
    else
      written <- sys_write fd data ;;
      if written <? 0 then RCLCPP_ERROR "writeData failed: %s"
      else ret tt).

(** [std::memcpy(dst, src, n)] on arrays held as lists. *)
Definition memcpy (dst src : list Z) (n : nat) : list Z :=
  firstn n src ++ skipn n dst.

(** The message [send] fills in before encoding.  [jfi_msg] is the local
    variable as it is on entry: the code does not initialise it, so the
    bytes of [data] past the copied ones are whatever it held.  The [len]
    field is taken to be one byte wide, like the tag. *)
Definition send_fill (jfi_msg : mavlink_jfi_t) (tid : Z) (data : list Z)
    : mavlink_jfi_t :=
  let copy_len := Nat.min (List.length data) JFI_DATA_LEN in
  {| jfi_tid := tid;
     jfi_data := memcpy (jfi_data jfi_msg) data copy_len;
     jfi_len := uint8 (Z.of_nat copy_len) |}.

(** The bytes [send] hands to [writeData], for an object [o] and the
    channel's sequence counter [tx_seq]. *)
Definition send_buffer (o : JFiComm) (tx_seq : Z) (jfi_msg : mavlink_jfi_t)
    (tid : Z) (data : list Z) : list Z :=
  mavlink_msg_to_send_buffer
    (mavlink_msg_jfi_encode (system_id_ o) (component_id_ o) tx_seq
       (send_fill jfi_msg tid data)).

Definition next_tx_seq : M Z :=
  fun s =>
    let c := chan0 s in
    (current_tx_seq c,
     with_chan0 {| parse_state := parse_state c;
                   packet_idx := packet_idx c;
                   rxmsg := rxmsg c;
                   current_tx_seq := uint8 (current_tx_seq c + 1) |} s).

Definition get_obj : M JFiComm := fun s => (obj s, s).

(** [void JFiComm::send(const uint8_t tid, const std::vector<uint8_t> & data)] *)
Definition send (jfi_msg : mavlink_jfi_t) (tid : Z) (data : list Z)
    : M unit :=
  o <- get_obj ;;
  tx_seq <- next_tx_seq ;;
  writeData (send_buffer o tx_seq jfi_msg tid data) ;;
  RCLCPP_INFO "PUSH".

(** [mav_recv_thread_ = std::thread(&JFiComm::recvMavLoop, this)]: the new
    thread starts; assigning to a thread object that is still joinable
    calls [std::terminate]. *)
Definition start_thread : M unit :=
  emit EvThreadStart ;;
  o <- get_obj ;;
  if mav_recv_thread_ o then
    (fun s => (tt, with_terminated true s))
  else set_thread true.

(** [bool JFiComm::init(recv_cb, port_name, baud_rate, system_id,
    component_id)] *)
Definition init (recv_cb : option callback) (port_name : string)
    (baud_rate : Z) (system_id component_id : Z) : M bool :=
  set_identity recv_cb system_id component_id ;;
  r <- openPort port_name baud_rate ;;
  (if r : bool then
     set_running true ;;
     start_thread
   else
     RCLCPP_ERROR "Failed to open port. Receiver thread not started.") ;;
  ret r.

(** [JFiComm::~JFiComm()]: the flag is cleared, the thread joined if there
    is one, and the port closed. *)
Definition JFiComm_destroy : M unit :=
  set_running false ;;
  o <- get_obj ;;
  (if mav_recv_thread_ o then emit EvThreadJoin ;; set_thread false
   else ret tt) ;;
  closePort.

Definition get_memory_after_data : M (nat -> Z) :=
  fun s => (memory_after_data s, s).

(** The body of [if (mavlink_parse_char(...) == 1)] in [recvMavLoop].  The
    handler's vector is built from [len] bytes starting at [data], with no
    check of [len] against the array's size. *)
Definition on_message (message : mavlink_message_t) : M unit :=
  if msgid message =? MAVLINK_MSG_ID_JFI then
    RCLCPP_INFO "RECV" ;;
    let jfi_msg_ := mavlink_msg_jfi_decode message in
    mem <- get_memory_after_data ;;
    let data :=
      read_past (jfi_data jfi_msg_) mem (Z.to_nat (jfi_len jfi_msg_)) in
    o <- get_obj ;;
    match receive_callback_ o with
    | Some cb => emit (EvCallback cb (jfi_tid jfi_msg_) data)
    | None => ret tt
    end
  else
    RCLCPP_WARN "Unknown message ID: %d".

Definition parse_char (c : Z) : M (option mavlink_message_t) :=
  fun s =>
    let '(ch, r) := mavlink_parse_char c (chan0 s) in
    (r, with_chan0 ch s).

(** [for (ssize_t i = 0; i < n; ++i)] over the bytes read. *)
Fixpoint feed (rx : list Z) : M unit :=
  match rx with
  | [] => ret tt
  | c :: rest =>
      r <- parse_char c ;;
      match r with
      | Some message => on_message message
      | None => ret tt
      end ;;
      feed rest
  end.

(** The first block of the loop body: the test of [fd_], made under the
    mutex; the wait for a closed port happens inside the block. *)
Definition port_is_open : M bool :=
  lock_guard (
    fd <- get_fd ;;
    if fd <? 0 then sleep_for 10 ;; ret false
    else ret true).

(** The rest of the loop body, from [std::vector<uint8_t> rx(256)] on. *)
Definition read_and_feed : M unit :=
  fd <- get_fd ;;
  r <- sys_read fd 256 ;;
  let '(n, rx) := r in
  if n <? 0 then
    RCLCPP_ERROR "read() failed: %s" ;;
    sleep_for 10
  else if n =? 0 then
    sleep_for 5
  else feed rx.

(** One pass through the body of [while (running_)] in [recvMavLoop]. *)
Definition recvMavLoop_body : M unit :=
  is_open <- port_is_open ;;
  if is_open : bool then read_and_feed else ret tt.

(** A pass of the loop body during which another thread runs [closePort]
    at the point where the loop has released the mutex. *)
Definition recvMavLoop_body_close_between : M unit :=
  is_open <- port_is_open ;;
  closePort ;;
  if is_open : bool then read_and_feed else ret tt.

Definition get_running : M bool := fun s => (running_ (obj s), s).

(** [void JFiComm::recvMavLoop()], for at most [fuel] passes. *)
Fixpoint recvMavLoop (fuel : nat) : M unit :=
  match fuel with
  | O => ret tt
  | S fuel' =>
      running <- get_running ;;
      if running : bool then recvMavLoop_body ;; recvMavLoop fuel'
      else ret tt
  end.

(** The events a computation adds to the trace. *)
Definition events_of {A} (m : M A) (s : machine) : list event :=
  skipn (List.length (trace s)) (trace (snd (m s))).

End Methods.

(** ** What a decoded frame gives rise to *)

(** The events of [on_message], as a function of the handler registered
    and of the memory [mem] after the data array: a frame of the recognised
    type is announced and handed to the handler with its tag and the [len]
    bytes read from its data on; any other frame is reported with a warning
    and dropped. *)
Definition frame_events `{Dialect} (cb : option callback) (mem : nat -> Z)
    (message : mavlink_message_t) : list event :=
  if msgid message =? MAVLINK_MSG_ID_JFI then
    let jfi_msg_ := mavlink_msg_jfi_decode message in
    EvLog INFO "RECV"
    :: match cb with
       | Some f =>
           [EvCallback f (jfi_tid jfi_msg_)
              (read_past (jfi_data jfi_msg_) mem
                 (Z.to_nat (jfi_len jfi_msg_)))]
       | None => []
       end
  else [EvLog WARN "Unknown message ID: %d"].

(** The events of a run of decoded frames, each with the memory found after
    the data array when it was handled. *)
Definition frames_events `{Dialect} (cb : option callback)
    (frames : list mavlink_message_t) (mems : list (nat -> Z)) : list event :=
  flat_map (fun p => frame_events cb (snd p) (fst p)) (combine frames mems).

(** ** Supported line rates *)

Definition supported_baud (baud_rate : Z) : bool :=
  existsb (Z.eqb baud_rate) [9600; 19200; 38400; 57600; 115200].

(** ** Lock discipline on traces *)

Definition is_fd_op (e : event) : bool :=
  match e with
  | EvOpen _ _ | EvTcgetattr _ _ | EvTcsetattr _ _ _ | EvTcflush _
  | EvClose _ | EvRead _ _ | EvWrite _ _ _ => true
  | _ => false
  end.

(** Every descriptor operation of the trace happens between an [EvLock] and
    the next [EvUnlock]; [held] tells whether the mutex is held at the start. *)
Fixpoint guarded_from (held : bool) (t : list event) : bool :=
  match t with
  | [] => true
  | EvLock :: r => guarded_from true r
  | EvUnlock :: r => guarded_from false r
  | e :: r => (if is_fd_op e then held else true) && guarded_from held r
  end.

Definition guarded (t : list event) : bool := guarded_from false t.

(** The mutex is never taken while held nor released while free. *)
Fixpoint mutex_ok_from (held : bool) (t : list event) : bool :=
  match t with
  | [] => true
  | EvLock :: r => negb held && mutex_ok_from true r
  | EvUnlock :: r => held && mutex_ok_from false r
  | _ :: r => mutex_ok_from held r
  end.

Definition mutex_ok (t : list event) : bool := mutex_ok_from false t.

(** ** A concrete dialect and kernel, for evaluation *)

(** The X.25 checksum step of the MAVLink 1 framing. *)
Definition x25_accumulate (data crc : Z) : Z :=
  let tmp := Z.lxor data (Z.land crc 255) in
  let tmp := Z.land (Z.lxor tmp (Z.shiftl tmp 4)) 255 in
  Z.land
    (Z.lxor (Z.lxor (Z.lxor (Z.shiftr crc 8) (Z.shiftl tmp 8))
               (Z.shiftl tmp 3))
       (Z.shiftr tmp 4))
    65535.

Definition demo_dialect : Dialect :=
  {| MAVLINK_STX := 254;
     crc_init := 65535;
     crc_accumulate := x25_accumulate;
     crc_extra := fun id => (id * 7 + 1) mod 256;
     MAVLINK_MSG_ID_JFI := 200;
     JFI_DATA_LEN := 4 |}.

Definition demo_tty : termios :=
  {| c_iflag := 1280; c_oflag := 5; c_cflag := 3261; c_lflag := 35387;
     c_cc_VMIN := 1; c_cc_VTIME := 0; c_ispeed := B9600; c_ospeed := B9600 |}.

(** A kernel on which ["/dev/ttyUSB0"] opens as descriptor 3 and accepts its
    settings, ["/dev/ttyUSB1"] opens as descriptor 4 but rejects
    [tcsetattr], ["/dev/null"] opens as descriptor 5 but is no terminal, and
    nothing else opens. *)
Definition demo_kernel : Kernel :=
  {| k_open := fun path =>
       if String.eqb path "/dev/ttyUSB0" then Some 3%nat
       else if String.eqb path "/dev/ttyUSB1" then Some 4%nat
       else if String.eqb path "/dev/null" then Some 5%nat
       else None;
     k_tcgetattr := fun fd =>
       if (fd =? 3) || (fd =? 4) then Some demo_tty else None;
     k_tcsetattr := fun fd _ => fd =? 3;
     k_write := fun _ bytes => Z.of_nat (List.length bytes) |}.

(** Memory after the data array that holds the byte 165 throughout. *)
Definition demo_memory : Overread :=
  {| memory_after_data := fun _ _ => 165 |}.

(** What the uninitialised local [jfi_msg] of [send] might hold on entry. *)
Definition demo_jfi : mavlink_jfi_t :=
  {| jfi_tid := 9; jfi_len := 77; jfi_data := [170; 187; 204; 221] |}.

(** A freshly constructed object on a process with no descriptor. *)
Definition demo_closed : machine := machine_new.

(** An object holding descriptor 3, with three bytes waiting on the line. *)
Definition demo_open : machine :=
  {| obj := {| fd_ := 3; running_ := true; system_id_ := 1;
               component_id_ := 1; receive_callback_ := Some 0%nat;
               mav_recv_thread_ := true |};
     open_fds := [3];
     pending_reads := [Some [1; 2; 3]];
     chan0 := channel_init;
     terminated := false;
     trace := [] |}.

(** ** Well-framed messages *)

(** A frame whose length field counts its payload and whose checksum is
    the one the protocol prescribes. *)
Definition well_framed `{Dialect} (m : mavlink_message_t) : Prop :=
  msg_payload m <> []
  /\ msg_len m = Z.of_nat (List.length (msg_payload m))
  /\ msg_checksum m
     = crc_accumulate (crc_extra (msgid m))
         (crc_accumulate_buffer
            ([msg_len m; msg_seq m; msg_sysid m; msg_compid m; msgid m]
             ++ msg_payload m) crc_init).

(** ** Proof automation *)

(** Unfolds the monadic plumbing of a method down to its effect on the
    machine. *)
Ltac run_monad :=
  cbv [lock_guard bind ret emit get_fd set_fd set_running set_identity
       set_thread get_obj get_running get_memory_after_data next_tx_seq
       sleep_for
       RCLCPP_INFO RCLCPP_WARN RCLCPP_ERROR
       sys_open sys_close sys_tcgetattr sys_tcsetattr sys_tcflush sys_write
       with_obj with_open_fds with_pending_reads with_chan0 with_terminated
       with_trace];
  cbn [obj open_fds pending_reads chan0 terminated trace fst snd
       fd_ running_ system_id_ component_id_ receive_callback_
       mav_recv_thread_].

Ltac trace_norm :=
  repeat rewrite <- app_assoc; cbn [app].

(** ** Further notions used in the statements *)

(** The speed constant the [switch] of [openPort] ends with. *)
Definition speed_of_baud (baud_rate : Z) : Z :=
  if baud_rate =? 9600 then B9600
  else if baud_rate =? 19200 then B19200
  else if baud_rate =? 38400 then B38400
  else if baud_rate =? 57600 then B57600
  else B115200.

(** The object holds no descriptor, or one the process really has. *)
Definition port_consistent (s : machine) : Prop :=
  fd_ (obj s) < 0 \/ holds_fd (fd_ (obj s)) (open_fds s) = true.

(** Events that touch neither the mutex nor a descriptor nor a thread. *)
Definition is_report (e : event) : bool :=
  match e with
  | EvLog _ _ | EvCallback _ _ _ => true
  | _ => false
  end.

(** Bits of the flag words: a goal [Z.land e mask = v] over [Z.land],
    [Z.lor] and [Z.lnot] of an unknown word [x] and constants below 2^16.
    [low_bits] is a case principle for the bit positions below 16. *)
Ltac flag_bits x low_bits :=
  apply Z.bits_inj'; intros n Hn;
  repeat first [ rewrite Z.land_spec | rewrite Z.lor_spec
               | rewrite Z.lnot_spec by exact Hn ];
  destruct (Z.lt_ge_cases n 16) as [Hlt|Hge];
  [ assert (Hr : 0 <= n < 16) by (split; assumption);
    clear Hn Hlt; revert n Hr; apply low_bits;
    destruct (Z.testbit x _); reflexivity
  | repeat match goal with
           | |- context [Z.testbit (Z.pos ?p) n] =>
               rewrite (Z.bits_above_log2 (Z.pos p) n)
                 by first [ lia
                          | apply Z.lt_le_trans with (m := 16);
                            [vm_compute; reflexivity | exact Hge] ]
           end;
    rewrite ?Z.bits_0; destruct (Z.testbit x n); reflexivity ].

(** Events that change what the process or the object holds: descriptors
    opened, closed, reconfigured or written to, threads started or joined. *)
Definition mutates_port (e : event) : bool :=
  match e with
  | EvOpen _ _ | EvClose _ | EvTcsetattr _ _ _ | EvTcflush _
  | EvWrite _ _ _ | EvThreadStart | EvThreadJoin => true
  | _ => false
  end.

Definition is_lock (e : event) : bool :=
  match e with
  | EvLock => true
  | _ => false
  end.

(** Events that are neither a mutex operation nor a system call nor a thread
    operation: log lines, handler invocations and waits. *)
Definition is_quiet (e : event) : bool :=
  match e with
  | EvLog _ _ | EvCallback _ _ _ | EvSleep _ => true
  | _ => false
  end.

(** Whether the mutex is held at the end of a trace. *)
Fixpoint held_after (held : bool) (t : list event) : bool :=
  match t with
  | [] => held
  | EvLock :: r => held_after true r
  | EvUnlock :: r => held_after false r
  | _ :: r => held_after held r
  end.

(** A trace that takes the mutex only when it is free, releases it only
    when it is held, and ends with it released. *)
Definition balanced (t : list event) : bool :=
  mutex_ok t && negb (held_after false t).

(** * Properties *)


(** ** Traces *)

Lemma skipn_length_app {A} (t l : list A) :
  skipn (List.length t) (t ++ l) = l.
Proof.
  induction t as [|x t IH]; simpl; [reflexivity | exact IH].
Qed.

Lemma events_of_app {A} (m : M A) (s : machine) (l : list event) :
  trace (snd (m s)) = trace s ++ l -> events_of m s = l.
Proof.
  intros E. unfold events_of. rewrite E. apply skipn_length_app.
Qed.

Lemma release_fd_head (fd : Z) (l : list Z) : release_fd fd (fd :: l) = l.
Proof.
  simpl. rewrite Z.eqb_refl. reflexivity.
Qed.

Section PortHandle.
Context `{Dialect} `{Kernel}.

(** What [openPort] does when a descriptor is already held. *)
Lemma openPort_held (s : machine) (port_name : string) (baud_rate : Z) :
  0 <= fd_ (obj s) ->
  openPort port_name baud_rate s
  = (true, with_trace (trace s ++ [EvLock; EvUnlock]) s).
Proof.
  intros Hfd. unfold openPort. run_monad.
  destruct (0 <=? fd_ (obj s)) eqn:E; [|apply Z.leb_gt in E; lia].
  run_monad. trace_norm. reflexivity.
Qed.

(** What [writeData] does when no descriptor is held. *)
Lemma writeData_closed (s : machine) (data : list Z) :
  fd_ (obj s) < 0 ->
  writeData data s = (tt, with_trace (trace s ++ [EvLock; EvUnlock]) s).
Proof.
  intros Hfd. unfold writeData. run_monad.
  destruct (fd_ (obj s) <? 0) eqn:E; [|apply Z.ltb_ge in E; lia].
  run_monad. trace_norm. reflexivity.
Qed.

(** [closePort] leaves no descriptor in the object, and releases the one it
    held; on a closed port it does nothing but take and release the mutex. *)
Lemma closePort_spec (s : machine) :
  closePort s
  = if 0 <=? fd_ (obj s) then
      (tt, with_trace
             (trace s ++ [EvLock; EvClose (fd_ (obj s));
                          EvLog INFO "Port closed"; EvUnlock])
             (with_open_fds (release_fd (fd_ (obj s)) (open_fds s))
                (snd (set_fd (-1) s))))
    else (tt, with_trace (trace s ++ [EvLock; EvUnlock]) s).
Proof.
  unfold closePort. run_monad.
  destruct (0 <=? fd_ (obj s)); run_monad; trace_norm; reflexivity.
Qed.

Lemma closePort_closes (s : machine) :
  fd_ (obj (snd (closePort s))) < 0.
Proof.
  rewrite closePort_spec.
  destruct (0 <=? fd_ (obj s)) eqn:E; cbn.
  - lia.
  - apply Z.leb_gt in E. exact E.
Qed.

(** Tearing the object down stops the loop and closes the port. *)
Lemma JFiComm_destroy_stops_and_closes (s : machine) :
  let s' := snd (JFiComm_destroy s) in
  running_ (obj s') = false
  /\ mav_recv_thread_ (obj s') = false
  /\ fd_ (obj s') < 0.
Proof.
  cbv zeta. unfold JFiComm_destroy. run_monad.
  destruct (mav_recv_thread_ (obj s)) eqn:Ej; run_monad;
    rewrite closePort_spec; cbn [obj fd_];
    match goal with
    | |- context [if ?c then _ else _] => destruct c eqn:E
    end; cbn; rewrite ?Ej; repeat split; try lia;
    apply Z.leb_gt in E; exact E.
Qed.

(** The [switch] of [openPort]: the speed constant chosen stands for the
    requested rate when it is a supported one and for 115200 otherwise, in
    which case a warning is logged; nothing else changes. *)
Lemma select_speed_spec (baud_rate : Z) (s : machine) :
  exists speed l,
    select_speed baud_rate s = (speed, with_trace (trace s ++ l) s)
    /\ speed_bps speed
       = Some (if supported_baud baud_rate then baud_rate else 115200)
    /\ l = (if supported_baud baud_rate then []
            else [EvLog WARN
                    "Unsupported baud rate: %d, defaulting to 115200"]).
Proof.
  unfold select_speed, supported_baud. cbn [existsb].
  destruct (baud_rate =? 9600) eqn:E1.
  { apply Z.eqb_eq in E1; subst. exists B9600, []. run_monad.
    rewrite app_nil_r. destruct s; repeat split. }
  destruct (baud_rate =? 19200) eqn:E2.
  { apply Z.eqb_eq in E2; subst. exists B19200, []. run_monad.
    rewrite app_nil_r. destruct s; repeat split. }
  destruct (baud_rate =? 38400) eqn:E3.
  { apply Z.eqb_eq in E3; subst. exists B38400, []. run_monad.
    rewrite app_nil_r. destruct s; repeat split. }
  destruct (baud_rate =? 57600) eqn:E4.
  { apply Z.eqb_eq in E4; subst. exists B57600, []. run_monad.
    rewrite app_nil_r. destruct s; repeat split. }
  destruct (baud_rate =? 115200) eqn:E5.
  { apply Z.eqb_eq in E5; subst. exists B115200, []. run_monad.
    rewrite app_nil_r. destruct s; repeat split. }
  eexists B115200, _. run_monad. cbn [orb]. repeat split.
Qed.

(** C5. When [openPort] returns failure, whichever step failed ([::open],
    [tcgetattr] or [tcsetattr]), the object holds no descriptor ([fd_] is
    -1) and the process holds exactly the descriptors it held before: the
    one acquired on the way has been closed again. *)
Theorem openPort_failure_leaves_closed
    (s : machine) (port_name : string) (baud_rate : Z) :
  fst (openPort port_name baud_rate s) = false ->
  fd_ (obj (snd (openPort port_name baud_rate s))) = -1
  /\ open_fds (snd (openPort port_name baud_rate s)) = open_fds s.
Proof.
  unfold openPort. run_monad.
  destruct (0 <=? fd_ (obj s)) eqn:E0; run_monad; [discriminate|].
  destruct (k_open port_name) as [n|] eqn:Eo; run_monad.
  - destruct (Z.of_nat n <? 0) eqn:En; [apply Z.ltb_lt in En; lia|].
    run_monad.
    destruct (k_tcgetattr (Z.of_nat n)) as [tty|] eqn:Eg; run_monad.
    + match goal with
      | |- context [select_speed baud_rate ?s1] =>
          destruct (select_speed_spec baud_rate s1)
            as (speed & l & Es & _ & _); rewrite Es
      end.
      run_monad.
      destruct (k_tcsetattr (Z.of_nat n) (configure_tty tty speed));
        run_monad; [discriminate|].
      intros _. rewrite release_fd_head. split; reflexivity.
    + intros _. rewrite release_fd_head. split; reflexivity.
  - change (-1 <? 0) with true. run_monad. intros _. split; reflexivity.
Qed.

(** C8. Calling [openPort] while a descriptor is held returns success at
    once: apart from taking and releasing the mutex it performs no system
    call (no second [::open], no [tcsetattr]), and the object and the
    process's descriptors are unchanged. *)
Theorem openPort_idempotent
    (s : machine) (port_name : string) (baud_rate : Z) :
  0 <= fd_ (obj s) ->
  fst (openPort port_name baud_rate s) = true
  /\ events_of (openPort port_name baud_rate) s = [EvLock; EvUnlock]
  /\ obj (snd (openPort port_name baud_rate s)) = obj s
  /\ open_fds (snd (openPort port_name baud_rate s)) = open_fds s.
Proof.
  intros Hfd. repeat split.
  - rewrite (openPort_held s port_name baud_rate Hfd). reflexivity.
  - apply events_of_app.
    rewrite (openPort_held s port_name baud_rate Hfd). reflexivity.
  - rewrite (openPort_held s port_name baud_rate Hfd). reflexivity.
  - rewrite (openPort_held s port_name baud_rate Hfd). reflexivity.
Qed.

(** What [cfsetispeed] leaves alone, and the speed it records. *)
Lemma cfsetispeed_fields (t : termios) (speed : Z) :
  c_ispeed (cfsetispeed t speed) = speed
  /\ c_ospeed (cfsetispeed t speed) = c_ospeed t
  /\ c_lflag (cfsetispeed t speed) = c_lflag t
  /\ c_oflag (cfsetispeed t speed) = c_oflag t.
Proof.
  unfold cfsetispeed. destruct (speed =? 0); repeat split.
Qed.

(** The speeds recorded in the settings [openPort] computes. *)
Lemma configure_tty_speeds (tty : termios) (speed : Z) :
  c_ispeed (configure_tty tty speed) = speed
  /\ c_ospeed (configure_tty tty speed) = speed.
Proof.
  change (c_ispeed (configure_tty tty speed))
    with (c_ispeed (cfsetispeed (cfsetospeed tty speed) speed)).
  change (c_ospeed (configure_tty tty speed))
    with (c_ospeed (cfsetispeed (cfsetospeed tty speed) speed)).
  destruct (cfsetispeed_fields (cfsetospeed tty speed) speed)
    as (Hi & Ho & _).
  rewrite Hi, Ho. split; reflexivity.
Qed.

(** C4. When [openPort] gets as far as configuring the line (no descriptor
    held, [::open] and [tcgetattr] succeed), the one [tcsetattr] call it
    makes carries input and output speeds that stand for the requested rate
    when it is one of 9600, 19200, 38400, 57600, 115200, and for 115200
    otherwise; in the latter case a warning is logged, and the result of
    [openPort] is that of [tcsetattr] either way. *)
Theorem openPort_applies_baud_rate
    (s : machine) (port_name : string) (baud_rate : Z)
    (n : nat) (tty : termios) :
  fd_ (obj s) < 0 ->
  k_open port_name = Some n ->
  k_tcgetattr (Z.of_nat n) = Some tty ->
  exists applied : termios,
    (forall fd t ok,
        In (EvTcsetattr fd t ok) (events_of (openPort port_name baud_rate) s)
        -> fd = Z.of_nat n /\ t = applied)
    /\ In (EvTcsetattr (Z.of_nat n) applied
             (k_tcsetattr (Z.of_nat n) applied))
          (events_of (openPort port_name baud_rate) s)
    /\ speed_bps (c_ispeed applied)
       = Some (if supported_baud baud_rate then baud_rate else 115200)
    /\ speed_bps (c_ospeed applied)
       = Some (if supported_baud baud_rate then baud_rate else 115200)
    /\ (supported_baud baud_rate = false ->
        In (EvLog WARN "Unsupported baud rate: %d, defaulting to 115200")
           (events_of (openPort port_name baud_rate) s))
    /\ fst (openPort port_name baud_rate s)
       = k_tcsetattr (Z.of_nat n) applied.
Proof.
  intros Hfd Ho Hg.
  unfold events_of, openPort. run_monad.
  destruct (0 <=? fd_ (obj s)) eqn:E0; [apply Z.leb_le in E0; lia|].
  run_monad. rewrite Ho. run_monad.
  destruct (Z.of_nat n <? 0) eqn:En; [apply Z.ltb_lt in En; lia|].
  run_monad. rewrite Hg. run_monad.
  match goal with
  | |- context [select_speed baud_rate ?s1] =>
      destruct (select_speed_spec baud_rate s1)
        as (speed & l & Es & Hs & Hl); rewrite Es
  end.
  run_monad. exists (configure_tty tty speed).
  assert (Hin : forall (e : event) a b, In e l ->
            In e (EvLock :: a :: b :: l ++ [e])).
  { intros e a b Hi. simpl. do 3 right. apply in_or_app. left. exact Hi. }
  destruct (k_tcsetattr (Z.of_nat n) (configure_tty tty speed)) eqn:Ek;
    run_monad; trace_norm; rewrite skipn_length_app;
    (split; [|split; [|split; [|split; [|split]]]]);
    rewrite ?(proj1 (configure_tty_speeds tty speed)),
      ?(proj2 (configure_tty_speeds tty speed));
    try exact Hs; try reflexivity.
  all: try (intros fd t ok Hi; simpl in Hi;
            destruct Hi as [Hi|[Hi|[Hi|Hi]]]; try discriminate Hi;
            apply in_app_or in Hi; destruct Hi as [Hi|Hi];
            [ subst l; destruct (supported_baud baud_rate); simpl in Hi;
              [contradiction | destruct Hi as [Hi|[]]; discriminate Hi]
            | simpl in Hi;
              repeat (destruct Hi as [Hi|Hi]; try discriminate Hi);
              try contradiction;
              inversion Hi; split; reflexivity ]).
  all: try (simpl; do 3 right; apply in_or_app; right; left; reflexivity).
  all: intros Hu; rewrite Hu in Hl; subst l;
    simpl; do 3 right; left; reflexivity.
Qed.

(** The parts of the machine [openPort] leaves alone, and the events it
    cannot produce. *)
Lemma openPort_frame (s : machine) (port_name : string) (baud_rate : Z) :
  let s' := snd (openPort port_name baud_rate s) in
  (exists l, trace s' = trace s ++ l /\ ~ In EvThreadStart l
             /\ forall sev text, In (EvLog sev text) l ->
                  text <> "Failed to open port. Receiver thread not started.")
  /\ running_ (obj s') = running_ (obj s)
  /\ mav_recv_thread_ (obj s') = mav_recv_thread_ (obj s)
  /\ system_id_ (obj s') = system_id_ (obj s)
  /\ component_id_ (obj s') = component_id_ (obj s)
  /\ receive_callback_ (obj s') = receive_callback_ (obj s)
  /\ terminated s' = terminated s
  /\ chan0 s' = chan0 s.
Proof.
  unfold openPort. run_monad.
  destruct (0 <=? fd_ (obj s)) eqn:E0; run_monad.
  { trace_norm. repeat split; try reflexivity.
    eexists; split; [reflexivity|]. split.
    - simpl; intuition discriminate.
    - intros sev text Hi; simpl in Hi; intuition discriminate. }
  destruct (k_open port_name) as [n|] eqn:Eo; run_monad.
  - destruct (Z.of_nat n <? 0) eqn:En; [apply Z.ltb_lt in En; lia|].
    run_monad.
    destruct (k_tcgetattr (Z.of_nat n)) as [tty|] eqn:Eg; run_monad.
    + match goal with
      | |- context [select_speed baud_rate ?s1] =>
          destruct (select_speed_spec baud_rate s1)
            as (speed & l & Es & _ & Hl); rewrite Es
      end.
      run_monad.
      destruct (k_tcsetattr (Z.of_nat n) (configure_tty tty speed));
        run_monad; trace_norm; repeat split; try reflexivity;
        (eexists; split; [reflexivity|]); subst l;
        destruct (supported_baud baud_rate); simpl; split;
        try (intuition discriminate);
        intros sev text Hi;
        repeat (destruct Hi as [Hi|Hi]; [inversion Hi; discriminate|]);
        contradiction.
    + trace_norm. repeat split; try reflexivity.
      eexists; split; [reflexivity|]. split.
      * simpl; intuition discriminate.
      * intros sev text Hi.
        repeat (destruct Hi as [Hi|Hi]; [inversion Hi; discriminate|]).
        contradiction.
  - change (-1 <? 0) with true. run_monad. trace_norm.
    repeat split; try reflexivity.
    eexists; split; [reflexivity|]. split.
    * simpl; intuition discriminate.
    * intros sev text Hi.
      repeat (destruct Hi as [Hi|Hi]; [inversion Hi; discriminate|]).
      contradiction.
Qed.

End PortHandle.

Section Facade.
Context `{Dialect} `{Kernel}.

(** C7. [send] on an object that holds no descriptor returns normally for
    every tag and payload: the frame is encoded (the sequence counter
    advances), [writeData] takes and releases the mutex without calling
    [::write], no error is logged, and only the "PUSH" line is. *)
Theorem send_on_closed_port_is_silent
    (s : machine) (jfi_msg : mavlink_jfi_t) (tid : Z) (data : list Z) :
  fd_ (obj s) < 0 ->
  events_of (send jfi_msg tid data) s
  = [EvLock; EvUnlock; EvLog INFO "PUSH"]
  /\ obj (snd (send jfi_msg tid data s)) = obj s
  /\ open_fds (snd (send jfi_msg tid data s)) = open_fds s
  /\ terminated (snd (send jfi_msg tid data s)) = terminated s
  /\ current_tx_seq (chan0 (snd (send jfi_msg tid data s)))
     = uint8 (current_tx_seq (chan0 s) + 1).
Proof.
  intros Hfd. unfold events_of, send. run_monad.
  match goal with
  | |- context [writeData ?d ?s1] =>
      rewrite (writeData_closed s1 d Hfd)
  end.
  run_monad. trace_norm. rewrite skipn_length_app.
  repeat split.
Qed.

(** C6. [init] returns what [openPort] returned; the receiver thread is
    started exactly when that is success, and then [running_] is set; when
    it is failure, [running_] and the thread object are as they were (so
    they stay false and not joinable on an object that was not running)
    and the failure is logged. *)
Theorem init_starts_loop_iff_open_succeeded
    (s : machine) (recv_cb : option callback) (port_name : string)
    (baud_rate system_id component_id : Z) :
  let s1 := snd (set_identity recv_cb system_id component_id s) in
  let opened := fst (openPort port_name baud_rate s1) in
  let r := init recv_cb port_name baud_rate system_id component_id s in
  let evs :=
    events_of (init recv_cb port_name baud_rate system_id component_id) s in
  fst r = opened
  /\ (In EvThreadStart evs <-> opened = true)
  /\ (In (EvLog ERROR "Failed to open port. Receiver thread not started.")
        evs <-> opened = false)
  /\ running_ (obj (snd r)) = opened || running_ (obj s)
  /\ mav_recv_thread_ (obj (snd r)) = opened || mav_recv_thread_ (obj s).
Proof.
  cbv zeta. unfold events_of, init.
  cbv [bind]. cbn [snd fst].
  set (s1 := snd (set_identity recv_cb system_id component_id s)).
  replace (set_identity recv_cb system_id component_id s) with (tt, s1)
    by reflexivity.
  destruct (openPort_frame s1 port_name baud_rate)
    as ((l & Ht & Hns & Hnl) & Hr & Hth & _ & _ & _ & _ & _).
  destruct (openPort port_name baud_rate s1) as [opened s2] eqn:Eo.
  cbn [fst snd] in *.
  assert (Ht1 : trace s1 = trace s) by reflexivity.
  assert (Hr1 : running_ (obj s1) = running_ (obj s)) by reflexivity.
  assert (Hth1 : mav_recv_thread_ (obj s1) = mav_recv_thread_ (obj s))
    by reflexivity.
  rewrite Ht1 in Ht. rewrite Hr1 in Hr. rewrite Hth1 in Hth.
  clearbody s1. clear Eo Ht1 Hr1 Hth1.
  destruct opened; unfold start_thread; run_monad.
  - destruct (mav_recv_thread_ (obj s2)) eqn:Ej; run_monad;
      rewrite Ht; trace_norm; rewrite skipn_length_app;
      (split; [reflexivity|]);
      (split; [split; [reflexivity | intros _; apply in_or_app; right;
                                      left; reflexivity]|]);
      (split; [split; [|discriminate]|]).
    + intros Hi. apply in_app_or in Hi. destruct Hi as [Hi|Hi].
      * exfalso. exact (Hnl _ _ Hi eq_refl).
      * simpl in Hi. intuition discriminate.
    + split; [reflexivity|]. rewrite <- Hth. reflexivity.
    + intros Hi. apply in_app_or in Hi. destruct Hi as [Hi|Hi].
      * exfalso. exact (Hnl _ _ Hi eq_refl).
      * simpl in Hi. intuition discriminate.
    + split; reflexivity.
  - rewrite Ht. trace_norm. rewrite skipn_length_app.
    split; [reflexivity|]. split; [split; [|discriminate]|].
    + intros Hi. apply in_app_or in Hi. destruct Hi as [Hi|Hi].
      * contradiction.
      * simpl in Hi. intuition discriminate.
    + split; [split; [reflexivity|]|].
      * intros _. apply in_or_app. right. left. reflexivity.
      * split; [exact Hr | exact Hth].
Qed.

End Facade.

(** ** The frame codec *)

Section CodecProperties.
Context `{Dialect}.

Lemma parse_stream_step (c : Z) (rest : list Z)
    (ch ch1 : mavlink_status_t) (r : option mavlink_message_t) :
  mavlink_parse_char c ch = (ch1, r) ->
  parse_stream (c :: rest) ch
  = (fst (parse_stream rest ch1),
     match r with
     | Some m => m :: snd (parse_stream rest ch1)
     | None => snd (parse_stream rest ch1)
     end).
Proof.
  intros E. cbn [parse_stream]. rewrite E.
  destruct (parse_stream rest ch1) as [ch2 ms]. reflexivity.
Qed.

(** Bytes that emit no frame can be split off the front of a stream. *)
Lemma parse_stream_app (l1 l2 : list Z) :
  forall ch ch1 : mavlink_status_t,
    parse_stream l1 ch = (ch1, []) ->
    parse_stream (l1 ++ l2) ch = parse_stream l2 ch1.
Proof.
  induction l1 as [|x l1 IH]; intros ch ch1 E.
  - cbn in E. inversion E. reflexivity.
  - cbn [app].
    destruct (mavlink_parse_char x ch) as [cx r] eqn:Ex.
    rewrite (parse_stream_step x l1 ch cx r Ex) in E.
    rewrite (parse_stream_step x (l1 ++ l2) ch cx r Ex).
    destruct r as [m|]; [inversion E|].
    destruct (parse_stream l1 cx) as [a b] eqn:E1.
    cbn [fst snd] in E. inversion E; subst a b.
    rewrite (IH cx ch1 E1).
    destruct (parse_stream l2 ch1); reflexivity.
Qed.

(** The in-progress frame after a run of payload bytes. *)
Lemma rx_payload_fold (rest : list Z) (m : mavlink_message_t) :
  fold_left (fun m c => rx_payload c m) rest m
  = {| msg_checksum := crc_accumulate_buffer rest (msg_checksum m);
       msg_len := msg_len m; msg_seq := msg_seq m;
       msg_sysid := msg_sysid m; msg_compid := msg_compid m;
       msgid := msgid m; msg_payload := msg_payload m ++ rest |}.
Proof.
  revert m. induction rest as [|c rest IH]; intros m.
  - cbn. rewrite app_nil_r. destruct m; reflexivity.
  - cbn [fold_left]. rewrite IH. unfold rx_payload, rx_accumulate.
    cbn [msg_checksum msg_len msg_seq msg_sysid msg_compid msgid
         msg_payload].
    rewrite <- app_assoc. reflexivity.
Qed.

(** Reading the payload: once the header announced as many bytes as are
    still to come, the parser consumes them all, emits nothing, and waits
    for the checksum. *)
Lemma parse_payload_run (rest : list Z) :
  forall ch : mavlink_status_t,
    parse_state ch = ReadingPayload ->
    rest <> [] ->
    msg_len (rxmsg ch) = Z.of_nat (packet_idx ch + List.length rest) ->
    parse_stream rest ch
    = (set_parse VerifyingChecksum 0
         (rx_seal (fold_left (fun m c => rx_payload c m) rest (rxmsg ch)))
         ch, []).
Proof.
  induction rest as [|c rest IH]; intros ch Hst Hne Hlen; [congruence|].
  destruct rest as [|c2 rest].
  - cbn [List.length] in Hlen.
    erewrite parse_stream_step.
    2:{ unfold mavlink_parse_char. rewrite Hst. cbn [rx_payload msg_len].
        replace (Z.of_nat (S (packet_idx ch)) =? msg_len (rxmsg ch))
          with true by (symmetry; apply Z.eqb_eq; lia).
        reflexivity. }
    reflexivity.
  - cbn [List.length] in Hlen.
    erewrite parse_stream_step.
    2:{ unfold mavlink_parse_char. rewrite Hst. cbn [rx_payload msg_len].
        replace (Z.of_nat (S (packet_idx ch)) =? msg_len (rxmsg ch))
          with false by (symmetry; apply Z.eqb_neq; lia).
        reflexivity. }
    rewrite IH; [reflexivity | reflexivity | discriminate |].
    cbn [set_parse rxmsg packet_idx msg_len rx_payload List.length]. lia.
Qed.

(** The parser, waiting for a frame start, reads the bytes of a well-framed
    message back as exactly that message and waits for the next start. *)
Lemma parse_frame (m : mavlink_message_t) (ch : mavlink_status_t) :
  well_framed m ->
  parse_state ch = WaitingForStart ->
  parse_stream (mavlink_msg_to_send_buffer m) ch
  = (set_parse WaitingForStart 0 m ch, [m]).
Proof.
  intros (Hne & Hlen & Hck) Hst.
  unfold mavlink_msg_to_send_buffer. cbn [app].
  erewrite parse_stream_step.
  2:{ unfold mavlink_parse_char. rewrite Hst, Z.eqb_refl. reflexivity. }
  do 4 (erewrite parse_stream_step; [|reflexivity]).
  assert (Hnz : (msg_len m =? 0) = false).
  { apply Z.eqb_neq. rewrite Hlen. destruct (msg_payload m);
      [congruence | cbn [List.length]; lia]. }
  erewrite parse_stream_step.
  2:{ unfold mavlink_parse_char.
      cbn [set_parse parse_state packet_idx rxmsg Nat.ltb Nat.leb
           rx_header msg_len].
      rewrite Hnz. reflexivity. }
  cbn [fst snd set_parse rxmsg packet_idx current_tx_seq rx_header
       rx_accumulate msg_checksum msg_len msg_seq msg_sysid msg_compid
       msgid msg_payload].
  match goal with
  | |- context [parse_stream _ ?c] => set (ch5 := c)
  end.
  rewrite (parse_stream_app _ _ ch5 _
             (parse_payload_run (msg_payload m) ch5 eq_refl Hne Hlen)).
  rewrite rx_payload_fold.
  subst ch5. unfold rx_seal, rx_accumulate.
  cbn [rxmsg msg_checksum msg_len msg_seq msg_sysid msg_compid
       msgid msg_payload app set_parse current_tx_seq].
  assert (Hm :
    {| msg_checksum :=
         crc_accumulate (crc_extra (msgid m))
           (crc_accumulate_buffer (msg_payload m)
              (crc_accumulate (msgid m)
                 (crc_accumulate (msg_compid m)
                    (crc_accumulate (msg_sysid m)
                       (crc_accumulate (msg_seq m)
                          (crc_accumulate (msg_len m) crc_init))))));
       msg_len := msg_len m; msg_seq := msg_seq m;
       msg_sysid := msg_sysid m; msg_compid := msg_compid m;
       msgid := msgid m; msg_payload := msg_payload m |} = m).
  { destruct m; cbn in *. rewrite Hck. reflexivity. }
  rewrite Hm.
  erewrite parse_stream_step.
  2:{ unfold mavlink_parse_char.
      cbn [parse_state packet_idx rxmsg]. rewrite Z.eqb_refl.
      reflexivity. }
  erewrite parse_stream_step.
  2:{ unfold mavlink_parse_char.
      cbn [set_parse parse_state packet_idx rxmsg]. rewrite Z.eqb_refl.
      reflexivity. }
  reflexivity.
Qed.

End CodecProperties.

(** ** The receiver loop and the round trip *)

Section Receiver.
Context `{Dialect} `{Overread}.

(** Within the array, [read_past] is [firstn]. *)
Lemma read_past_within (arr : list Z) (mem : nat -> Z) (n : nat) :
  (n <= List.length arr)%nat -> read_past arr mem n = firstn n arr.
Proof.
  intros Hn. unfold read_past.
  replace (n - List.length arr)%nat with 0%nat by lia.
  cbn [seq map]. rewrite app_nil_r. reflexivity.
Qed.

Lemma decode_data_length (message : mavlink_message_t) :
  List.length (jfi_data (mavlink_msg_jfi_decode message)) = JFI_DATA_LEN.
Proof.
  unfold mavlink_msg_jfi_decode. cbn [jfi_data].
  rewrite length_firstn, length_app, repeat_length. lia.
Qed.

(** [on_message] only adds events. *)
Lemma on_message_spec (message : mavlink_message_t) (s : machine) :
  on_message message s
  = (tt, with_trace
           (trace s
            ++ frame_events (receive_callback_ (obj s)) (memory_seen s)
                 message) s).
Proof.
  unfold on_message, frame_events, memory_seen.
  destruct (msgid message =? MAVLINK_MSG_ID_JFI); run_monad.
  - destruct (receive_callback_ (obj s)); run_monad; trace_norm;
      reflexivity.
  - reflexivity.
Qed.

(** The [for] loop over the bytes read: the codec state advances as
    [parse_stream] says, and each frame it emits is handled in turn, with
    whatever the memory after the data array holds at that point. *)
Lemma feed_spec (rx : list Z) :
  forall s : machine,
    exists mems : list (nat -> Z),
      List.length mems = List.length (snd (parse_stream rx (chan0 s)))
      /\ feed rx s
         = (tt, with_trace
                  (trace s
                   ++ frames_events (receive_callback_ (obj s))
                        (snd (parse_stream rx (chan0 s))) mems)
                  (with_chan0 (fst (parse_stream rx (chan0 s))) s)).
Proof.
  induction rx as [|c rx IH]; intros s.
  - exists []. split; [reflexivity|].
    cbn. rewrite app_nil_r. destruct s; reflexivity.
  - cbn [feed]. unfold bind at 1. unfold parse_char at 1.
    destruct (mavlink_parse_char c (chan0 s)) as [ch1 r] eqn:E.
    rewrite (parse_stream_step c rx (chan0 s) ch1 r E). cbn [fst snd].
    unfold bind at 1. destruct r as [m|].
    + rewrite on_message_spec.
      match goal with
      | |- context [feed rx ?s1] => destruct (IH s1) as (mems & Hl & ->)
      end.
      exists (memory_seen (with_chan0 ch1 s) :: mems).
      cbn [with_trace with_chan0 obj chan0 trace] in *.
      split; [cbn [List.length]; rewrite Hl; reflexivity|].
      unfold frames_events. cbn [combine flat_map fst snd].
      rewrite <- app_assoc. reflexivity.
    + unfold ret at 1.
      match goal with
      | |- context [feed rx ?s1] => destruct (IH s1) as (mems & Hl & ->)
      end.
      exists mems.
      cbn [with_trace with_chan0 obj chan0 trace] in *.
      split; [exact Hl | reflexivity].
Qed.

Lemma feed_events (rx : list Z) (s : machine) :
  exists mems : list (nat -> Z),
    List.length mems = List.length (snd (parse_stream rx (chan0 s)))
    /\ events_of (feed rx) s
       = frames_events (receive_callback_ (obj s))
           (snd (parse_stream rx (chan0 s))) mems.
Proof.
  destruct (feed_spec rx s) as (mems & Hl & Hf).
  exists mems. split; [exact Hl|].
  apply events_of_app. rewrite Hf. reflexivity.
Qed.

(** What the loop's [for] loop leaves alone. *)
Lemma feed_frame (rx : list Z) (s : machine) :
  obj (snd (feed rx s)) = obj s
  /\ open_fds (snd (feed rx s)) = open_fds s
  /\ pending_reads (snd (feed rx s)) = pending_reads s
  /\ terminated (snd (feed rx s)) = terminated s
  /\ chan0 (snd (feed rx s)) = fst (parse_stream rx (chan0 s)).
Proof.
  destruct (feed_spec rx s) as (mems & _ & ->). repeat split.
Qed.


End Receiver.

Section RoundTrip.
Context `{Dialect} `{Overread}.

Lemma firstn_prefix {A} (a b : list A) (k : nat) :
  List.length a = k -> firstn k (a ++ b) = a.
Proof.
  intros <-. rewrite firstn_app, Nat.sub_diag, firstn_all.
  cbn. apply app_nil_r.
Qed.

(** The frame [mavlink_msg_jfi_encode] builds is well framed as long as the
    message fits the one-byte length field. *)
Lemma encode_well_framed (system_id component_id tx_seq : Z)
    (jfi : mavlink_jfi_t) :
  (JFI_DATA_LEN <= 253)%nat ->
  well_framed (mavlink_msg_jfi_encode system_id component_id tx_seq jfi).
Proof.
  intros Hcap. unfold well_framed, mavlink_msg_jfi_encode.
  cbn [msg_payload msg_len msg_checksum msg_seq msg_sysid msg_compid msgid].
  split; [discriminate|]. split; [|reflexivity].
  unfold uint8. apply Z.mod_small. cbn [List.length].
  pose proof (firstn_le_length JFI_DATA_LEN (jfi_data jfi)). lia.
Qed.

(** Filling, encoding and decoding a message: the tag comes back, the
    length field is the number of bytes [send] copied, and the first
    [len] bytes of the data are the bytes copied. *)
Lemma fill_encode_decode (system_id component_id tx_seq : Z)
    (jfi_msg : mavlink_jfi_t) (tid : Z) (data : list Z) :
  (JFI_DATA_LEN <= 253)%nat ->
  let out :=
    mavlink_msg_jfi_decode
      (mavlink_msg_jfi_encode system_id component_id tx_seq
         (send_fill jfi_msg tid data)) in
  jfi_tid out = tid
  /\ jfi_len out = Z.of_nat (Nat.min (List.length data) JFI_DATA_LEN)
  /\ firstn (Z.to_nat (jfi_len out)) (jfi_data out)
     = firstn JFI_DATA_LEN data.
Proof.
  intros Hcap. cbv zeta.
  unfold mavlink_msg_jfi_decode, mavlink_msg_jfi_encode, send_fill, memcpy.
  cbn [msg_payload nth skipn jfi_tid jfi_len jfi_data].
  set (k := Nat.min (List.length data) JFI_DATA_LEN).
  assert (Hk : uint8 (Z.of_nat k) = Z.of_nat k).
  { unfold uint8. apply Z.mod_small. subst k. lia. }
  rewrite Hk, Nat2Z.id.
  split; [reflexivity|]. split; [reflexivity|].
  assert (Hlk : List.length (firstn k data) = k).
  { rewrite length_firstn. subst k. lia. }
  assert (Hx : firstn JFI_DATA_LEN (firstn k data ++ skipn k (jfi_data jfi_msg))
               = firstn k data
                 ++ firstn (JFI_DATA_LEN - k) (skipn k (jfi_data jfi_msg))).
  { rewrite firstn_app, Hlk, firstn_firstn.
    replace (Nat.min JFI_DATA_LEN k) with k by (subst k; lia).
    reflexivity. }
  rewrite Hx, firstn_firstn, <- app_assoc.
  replace (Nat.min k JFI_DATA_LEN) with k by (subst k; lia).
  rewrite (firstn_prefix _ _ k Hlk).
  destruct (Nat.le_gt_cases (List.length data) JFI_DATA_LEN) as [Hle|Hgt].
  - replace k with (List.length data) by (subst k; lia).
    rewrite firstn_all. symmetry. apply firstn_all2. exact Hle.
  - replace k with JFI_DATA_LEN by (subst k; lia). reflexivity.
Qed.

(** What a receiver waiting for a frame start makes of the bytes [send]
    produces, whatever the payload's length. *)
Lemma send_buffer_parsed (o : JFiComm) (tx_seq : Z)
    (jfi_msg : mavlink_jfi_t) (tid : Z) (data : list Z)
    (ch : mavlink_status_t) :
  (JFI_DATA_LEN <= 253)%nat ->
  parse_state ch = WaitingForStart ->
  exists m : mavlink_message_t,
    parse_stream (send_buffer o tx_seq jfi_msg tid data) ch
    = (set_parse WaitingForStart 0 m ch, [m])
    /\ msgid m = MAVLINK_MSG_ID_JFI
    /\ jfi_tid (mavlink_msg_jfi_decode m) = tid
    /\ jfi_len (mavlink_msg_jfi_decode m)
       = Z.of_nat (Nat.min (List.length data) JFI_DATA_LEN)
    /\ firstn (Z.to_nat (jfi_len (mavlink_msg_jfi_decode m)))
         (jfi_data (mavlink_msg_jfi_decode m))
       = firstn JFI_DATA_LEN data.
Proof.
  intros Hcap Hst. unfold send_buffer.
  eexists. split.
  - apply parse_frame; [apply encode_well_framed; exact Hcap | exact Hst].
  - split; [reflexivity|].
    apply (fill_encode_decode (system_id_ o) (component_id_ o) tx_seq
             jfi_msg tid data Hcap).
Qed.

(** C1. For a payload [p] no longer than the data capacity, any tag [T],
    any identity (the fields of the sending object [o]) and any sequence
    number: the bytes [send] produces, fed to a receiver that is waiting
    for a frame start, decode to exactly one frame; it is of the
    recognised type, its tag is [T] and its payload is [p]; the receiver
    loop announces it and hands [T] and [p] to the registered handler. *)
Theorem send_receive_round_trip
    (o : JFiComm) (tx_seq : Z) (jfi_msg : mavlink_jfi_t)
    (T : Z) (p : list Z) (r : machine) :
  (JFI_DATA_LEN <= 253)%nat ->
  (List.length p <= JFI_DATA_LEN)%nat ->
  parse_state (chan0 r) = WaitingForStart ->
  let bytes := send_buffer o tx_seq jfi_msg T p in
  (exists m : mavlink_message_t,
      snd (parse_stream bytes (chan0 r)) = [m]
      /\ msgid m = MAVLINK_MSG_ID_JFI
      /\ jfi_tid (mavlink_msg_jfi_decode m) = T
      /\ firstn (Z.to_nat (jfi_len (mavlink_msg_jfi_decode m)))
           (jfi_data (mavlink_msg_jfi_decode m)) = p)
  /\ events_of (feed bytes) r
     = EvLog INFO "RECV"
       :: match receive_callback_ (obj r) with
          | Some cb => [EvCallback cb T p]
          | None => []
          end.
Proof.
  intros Hcap Hp Hst. cbv zeta.
  destruct (send_buffer_parsed o tx_seq jfi_msg T p (chan0 r) Hcap Hst)
    as (m & Hparse & Hid & Htid & Hlen & Hdata).
  rewrite (firstn_all2 p Hp) in Hdata.
  split.
  - exists m. rewrite Hparse. repeat split; assumption.
  - destruct (feed_events (send_buffer o tx_seq jfi_msg T p) r)
      as (mems & Hl & ->).
    rewrite Hparse in Hl |- *. cbn [snd List.length] in Hl |- *.
    destruct mems as [|mem [|mem' mems]]; try discriminate Hl.
    unfold frames_events. cbn [combine flat_map fst snd].
    rewrite app_nil_r. unfold frame_events.
    rewrite Hid, Z.eqb_refl, Htid.
    rewrite read_past_within by (rewrite decode_data_length, Hlen; lia).
    rewrite Hdata.
    destruct (receive_callback_ (obj r)); reflexivity.
Qed.

(** C2. For a payload [p] longer than the data capacity, [send] still
    produces a frame (encoding is a total function): fed to a receiver
    waiting for a frame start, it decodes to exactly one frame of the
    recognised type, whose length field is the capacity and whose payload
    is the first [JFI_DATA_LEN] bytes of [p]. *)
Theorem send_truncates_long_payload
    (o : JFiComm) (tx_seq : Z) (jfi_msg : mavlink_jfi_t)
    (T : Z) (p : list Z) (r : machine) :
  (JFI_DATA_LEN <= 253)%nat ->
  (JFI_DATA_LEN < List.length p)%nat ->
  parse_state (chan0 r) = WaitingForStart ->
  let bytes := send_buffer o tx_seq jfi_msg T p in
  (exists m : mavlink_message_t,
      snd (parse_stream bytes (chan0 r)) = [m]
      /\ msgid m = MAVLINK_MSG_ID_JFI
      /\ jfi_tid (mavlink_msg_jfi_decode m) = T
      /\ jfi_len (mavlink_msg_jfi_decode m) = Z.of_nat JFI_DATA_LEN
      /\ firstn (Z.to_nat (jfi_len (mavlink_msg_jfi_decode m)))
           (jfi_data (mavlink_msg_jfi_decode m))
         = firstn JFI_DATA_LEN p)
  /\ events_of (feed bytes) r
     = EvLog INFO "RECV"
       :: match receive_callback_ (obj r) with
          | Some cb => [EvCallback cb T (firstn JFI_DATA_LEN p)]
          | None => []
          end.
Proof.
  intros Hcap Hp Hst. cbv zeta.
  destruct (send_buffer_parsed o tx_seq jfi_msg T p (chan0 r) Hcap Hst)
    as (m & Hparse & Hid & Htid & Hlen & Hdata).
  rewrite Nat.min_r in Hlen by lia.
  split.
  - exists m. rewrite Hparse. repeat split; assumption.
  - destruct (feed_events (send_buffer o tx_seq jfi_msg T p) r)
      as (mems & Hl & ->).
    rewrite Hparse in Hl |- *. cbn [snd List.length] in Hl |- *.
    destruct mems as [|mem [|mem' mems]]; try discriminate Hl.
    unfold frames_events. cbn [combine flat_map fst snd].
    rewrite app_nil_r. unfold frame_events.
    rewrite Hid, Z.eqb_refl, Htid.
    rewrite read_past_within by (rewrite decode_data_length, Hlen; lia).
    rewrite Hdata.
    destruct (receive_callback_ (obj r)); reflexivity.
Qed.

End RoundTrip.

Section FacadeIdentity.
Context `{Dialect} `{Kernel}.

(** [init] stores the handler and the identity whatever [openPort] then
    returns. *)
Lemma init_stores_identity
    (s : machine) (recv_cb : option callback) (port_name : string)
    (baud_rate system_id component_id : Z) :
  let s' :=
    snd (init recv_cb port_name baud_rate system_id component_id s) in
  receive_callback_ (obj s') = recv_cb
  /\ system_id_ (obj s') = system_id
  /\ component_id_ (obj s') = component_id.
Proof.
  cbv zeta. unfold init. cbv [bind]. cbn [snd fst].
  set (s1 := snd (set_identity recv_cb system_id component_id s)).
  replace (set_identity recv_cb system_id component_id s) with (tt, s1)
    by reflexivity.
  destruct (openPort_frame s1 port_name baud_rate)
    as (_ & _ & _ & Hs & Hc & Hcb & _ & _).
  destruct (openPort port_name baud_rate s1) as [opened s2].
  cbn [fst snd] in *.
  destruct opened; unfold start_thread; run_monad.
  - destruct (mav_recv_thread_ (obj s2)); run_monad;
      rewrite Hs, Hc, Hcb; repeat split.
  - rewrite Hs, Hc, Hcb. repeat split.
Qed.

(** C10. When [init] returns failure, the handler and the identity pair of
    the object are nevertheless the ones just supplied, and the frames
    [send] builds afterwards carry that identity in their system-id and
    component-id fields. *)
Theorem init_failure_overwrites_identity
    (s : machine) (recv_cb : option callback) (port_name : string)
    (baud_rate system_id component_id : Z) :
  fst (init recv_cb port_name baud_rate system_id component_id s) = false ->
  let s' :=
    snd (init recv_cb port_name baud_rate system_id component_id s) in
  receive_callback_ (obj s') = recv_cb
  /\ system_id_ (obj s') = system_id
  /\ component_id_ (obj s') = component_id
  /\ forall tx_seq jfi_msg tid data,
       send_buffer (obj s') tx_seq jfi_msg tid data
       = mavlink_msg_to_send_buffer
           (mavlink_msg_jfi_encode system_id component_id tx_seq
              (send_fill jfi_msg tid data))
       /\ nth 3 (send_buffer (obj s') tx_seq jfi_msg tid data) 0 = system_id
       /\ nth 4 (send_buffer (obj s') tx_seq jfi_msg tid data) 0
          = component_id.
Proof.
  intros _. cbv zeta.
  destruct (init_stores_identity s recv_cb port_name baud_rate
              system_id component_id) as (Hcb & Hs & Hc).
  split; [exact Hcb|]. split; [exact Hs|]. split; [exact Hc|].
  intros tx_seq jfi_msg tid data. unfold send_buffer.
  rewrite Hs, Hc. repeat split.
Qed.

(** On an open port, [send] hands the encoded frame to [::write] under the
    mutex. *)
Lemma send_writes_buffer
    (s : machine) (jfi_msg : mavlink_jfi_t) (tid : Z) (data : list Z) :
  0 <= fd_ (obj s) ->
  let bytes :=
    send_buffer (obj s) (current_tx_seq (chan0 s)) jfi_msg tid data in
  exists l,
    events_of (send jfi_msg tid data) s
    = EvLock :: EvWrite (fd_ (obj s)) bytes (k_write (fd_ (obj s)) bytes)
      :: l.
Proof.
  intros Hfd. cbv zeta. unfold events_of, send, writeData. run_monad.
  destruct (fd_ (obj s) <? 0) eqn:E; [apply Z.ltb_lt in E; lia|].
  run_monad.
  destruct (k_write _ _ <? 0); run_monad; trace_norm;
    rewrite skipn_length_app; eexists; reflexivity.
Qed.

End FacadeIdentity.

(** ** The mutex *)

Section LockDiscipline.
Context `{Dialect} `{Kernel} `{Overread}.

Lemma openPort_guarded (s : machine) (port_name : string) (baud_rate : Z) :
  guarded (events_of (openPort port_name baud_rate) s) = true.
Proof.
  unfold events_of, openPort. run_monad.
  destruct (0 <=? fd_ (obj s)) eqn:E0; run_monad.
  { trace_norm. rewrite skipn_length_app. reflexivity. }
  destruct (k_open port_name) as [n|] eqn:Eo; run_monad.
  - destruct (Z.of_nat n <? 0) eqn:En; [apply Z.ltb_lt in En; lia|].
    run_monad.
    destruct (k_tcgetattr (Z.of_nat n)) as [tty|] eqn:Eg; run_monad.
    + match goal with
      | |- context [select_speed baud_rate ?s1] =>
          destruct (select_speed_spec baud_rate s1)
            as (speed & l & Es & _ & Hl); rewrite Es
      end.
      run_monad.
      destruct (k_tcsetattr (Z.of_nat n) (configure_tty tty speed));
        run_monad; trace_norm; rewrite skipn_length_app; subst l;
        destruct (supported_baud baud_rate); reflexivity.
    + trace_norm. rewrite skipn_length_app. reflexivity.
  - change (-1 <? 0) with true. run_monad. trace_norm.
    rewrite skipn_length_app. reflexivity.
Qed.

Lemma closePort_guarded (s : machine) :
  guarded (events_of closePort s) = true.
Proof.
  unfold events_of, closePort. run_monad.
  destruct (0 <=? fd_ (obj s)); run_monad; trace_norm;
    rewrite skipn_length_app; reflexivity.
Qed.

Lemma writeData_guarded (s : machine) (data : list Z) :
  guarded (events_of (writeData data) s) = true.
Proof.
  unfold events_of, writeData. run_monad.
  destruct (fd_ (obj s) <? 0); run_monad.
  - trace_norm. rewrite skipn_length_app. reflexivity.
  - destruct (k_write _ _ <? 0); run_monad; trace_norm;
      rewrite skipn_length_app; reflexivity.
Qed.

Lemma port_is_open_spec (s : machine) :
  port_is_open s
  = if fd_ (obj s) <? 0 then
      (false, with_trace (trace s ++ [EvLock; EvSleep 10; EvUnlock]) s)
    else (true, with_trace (trace s ++ [EvLock; EvUnlock]) s).
Proof.
  unfold port_is_open. run_monad.
  destruct (fd_ (obj s) <? 0); run_monad; trace_norm; reflexivity.
Qed.

(** The loop's read is issued once the mutex has been released. *)
Lemma recvMavLoop_body_reads_unlocked (s : machine) :
  0 <= fd_ (obj s) ->
  exists n rest,
    events_of recvMavLoop_body s
    = EvLock :: EvUnlock :: EvRead (fd_ (obj s)) n :: rest.
Proof.
  intros Hfd. unfold events_of, recvMavLoop_body. unfold bind at 1.
  rewrite port_is_open_spec.
  destruct (fd_ (obj s) <? 0) eqn:E; [apply Z.ltb_lt in E; lia|].
  unfold read_and_feed, sys_read. run_monad.
  destruct (holds_fd (fd_ (obj s)) (open_fds s)).
  - destruct (pending_reads s) as [|[bytes|] q]; run_monad.
    + change (0 <? 0) with false. change (0 =? 0) with true. run_monad.
      trace_norm. rewrite skipn_length_app. eexists _, _. reflexivity.
    + destruct (Z.of_nat (List.length (firstn 256 bytes)) <? 0) eqn:En;
        [apply Z.ltb_lt in En; lia|].
      destruct (Z.of_nat (List.length (firstn 256 bytes)) =? 0); run_monad.
      * trace_norm. rewrite skipn_length_app. eexists _, _. reflexivity.
      * match goal with
        | |- context [feed ?rx ?s1] =>
            destruct (feed_spec rx s1) as (mems & _ & ->)
        end.
        run_monad. trace_norm.
        rewrite skipn_length_app. eexists _, _. reflexivity.
    + change (-1 <? 0) with true. run_monad. trace_norm.
      rewrite skipn_length_app. eexists _, _. reflexivity.
  - change (-1 <? 0) with true. run_monad. trace_norm.
    rewrite skipn_length_app. eexists _, _. reflexivity.
Qed.

(** C3, as the code has it.  [openPort], [closePort] and [writeData]
    perform every descriptor operation ([::open], [tcgetattr],
    [tcsetattr], [tcflush], [::close], [::write]) while holding the mutex;
    the receiver loop's [::read], however, is issued after the mutex has
    been taken and released again, so outside it. *)
Theorem descriptor_operations_lock_discipline
    (s : machine) (port_name : string) (baud_rate : Z) (data : list Z) :
  guarded (events_of (openPort port_name baud_rate) s) = true
  /\ guarded (events_of closePort s) = true
  /\ guarded (events_of (writeData data) s) = true
  /\ (0 <= fd_ (obj s) ->
      (exists n rest,
          events_of recvMavLoop_body s
          = EvLock :: EvUnlock :: EvRead (fd_ (obj s)) n :: rest)
      /\ guarded (events_of recvMavLoop_body s) = false).
Proof.
  split; [apply openPort_guarded|].
  split; [apply closePort_guarded|].
  split; [apply writeData_guarded|].
  intros Hfd.
  destruct (recvMavLoop_body_reads_unlocked s Hfd) as (n & rest & E).
  split; [exists n, rest; exact E|].
  rewrite E. reflexivity.
Qed.

End LockDiscipline.


(** * Further properties of the code *)

(** ** The port handle, operation by operation *)

Section PortHandleMore.
Context `{Kernel}.

Lemma select_speed_eq (baud_rate : Z) (s : machine) :
  select_speed baud_rate s
  = (speed_of_baud baud_rate,
     with_trace
       (trace s
        ++ (if supported_baud baud_rate then []
            else [EvLog WARN
                    "Unsupported baud rate: %d, defaulting to 115200"]))
       s).
Proof.
  unfold select_speed, speed_of_baud, supported_baud. cbn [existsb].
  destruct (baud_rate =? 9600); [|destruct (baud_rate =? 19200);
    [|destruct (baud_rate =? 38400); [|destruct (baud_rate =? 57600);
      [|destruct (baud_rate =? 115200)]]]];
    run_monad; cbn [orb]; rewrite ?app_nil_r; destruct s; reflexivity.
Qed.

(** [openPort] on an object that holds no descriptor, outcome by outcome. *)
Lemma openPort_closed_spec (s : machine) (port_name : string) (baud_rate : Z) :
  fd_ (obj s) < 0 ->
  openPort port_name baud_rate s
  = match k_open port_name with
    | None =>
        (false,
         with_trace
           (trace s ++ [EvLock; EvOpen port_name (-1);
                        EvLog ERROR "Failed to open %s: %s"; EvUnlock])
           (snd (set_fd (-1) s)))
    | Some n =>
        let fd := Z.of_nat n in
        match k_tcgetattr fd with
        | None =>
            (false,
             with_trace
               (trace s ++ [EvLock; EvOpen port_name fd; EvTcgetattr fd false;
                            EvLog ERROR "tcgetattr failed: %s"; EvClose fd;
                            EvUnlock])
               (snd (set_fd (-1) s)))
        | Some tty =>
            let applied := configure_tty tty (speed_of_baud baud_rate) in
            let warn :=
              if supported_baud baud_rate then []
              else [EvLog WARN
                      "Unsupported baud rate: %d, defaulting to 115200"] in
            if k_tcsetattr fd applied then
              (true,
               with_trace
                 (trace s
                  ++ [EvLock; EvOpen port_name fd; EvTcgetattr fd true]
                  ++ warn
                  ++ [EvTcsetattr fd applied true; EvTcflush fd;
                      EvLog INFO "Opened port %s at %d bps"; EvUnlock])
                 (with_open_fds (fd :: open_fds s) (snd (set_fd fd s))))
            else
              (false,
               with_trace
                 (trace s
                  ++ [EvLock; EvOpen port_name fd; EvTcgetattr fd true]
                  ++ warn
                  ++ [EvTcsetattr fd applied false;
                      EvLog ERROR "tcsetattr failed: %s"; EvClose fd;
                      EvUnlock])
                 (snd (set_fd (-1) s)))
        end
    end.
Proof.
  intros Hfd. unfold openPort. run_monad.
  destruct (0 <=? fd_ (obj s)) eqn:E0; [apply Z.leb_le in E0; lia|].
  run_monad.
  destruct (k_open port_name) as [n|]; run_monad.
  - destruct (Z.of_nat n <? 0) eqn:En; [apply Z.ltb_lt in En; lia|].
    run_monad.
    destruct (k_tcgetattr (Z.of_nat n)) as [tty|]; run_monad.
    + rewrite select_speed_eq. run_monad.
      destruct (k_tcsetattr (Z.of_nat n)
                  (configure_tty tty (speed_of_baud baud_rate)));
        run_monad; rewrite ?release_fd_head; trace_norm;
        destruct (supported_baud baud_rate); reflexivity.
    + rewrite release_fd_head. trace_norm. reflexivity.
  - change (-1 <? 0) with true. run_monad. trace_norm. reflexivity.
Qed.

(** X1. On an object that holds no descriptor, [openPort] succeeds exactly
    when [::open] gives a descriptor, [tcgetattr] succeeds on it and
    [tcsetattr] accepts the settings computed from what [tcgetattr] gave and
    the requested rate; whether the rate is a supported one plays no part. *)
Theorem openPort_succeeds_iff
    (s : machine) (port_name : string) (baud_rate : Z) :
  fd_ (obj s) < 0 ->
  (fst (openPort port_name baud_rate s) = true
   <-> exists n tty,
         k_open port_name = Some n
         /\ k_tcgetattr (Z.of_nat n) = Some tty
         /\ k_tcsetattr (Z.of_nat n)
              (configure_tty tty (speed_of_baud baud_rate)) = true).
Proof.
  intros Hfd. rewrite (openPort_closed_spec s port_name baud_rate Hfd).
  destruct (k_open port_name) as [n|] eqn:Eo.
  - cbv zeta. destruct (k_tcgetattr (Z.of_nat n)) as [tty|] eqn:Eg.
    + destruct (k_tcsetattr (Z.of_nat n)
                  (configure_tty tty (speed_of_baud baud_rate))) eqn:Ek;
        cbn [fst]; split.
      * intros _. exists n, tty. repeat split; assumption.
      * reflexivity.
      * discriminate.
      * intros (n' & tty' & Hn & Hg & Hk).
        inversion Hn; subst n'. rewrite Eg in Hg. inversion Hg; subst tty'.
        rewrite Ek in Hk. discriminate Hk.
    + cbn [fst]. split; [discriminate|].
      intros (n' & tty' & Hn & Hg & _).
      inversion Hn; subst n'. rewrite Eg in Hg. discriminate Hg.
  - cbn [fst]. split; [discriminate|].
    intros (n' & tty' & Hn & _). discriminate Hn.
Qed.

(** X2. When [openPort] succeeds on an object that held no descriptor, the
    object holds the descriptor [::open] returned, the process has gained
    exactly that descriptor, nothing else of the object has changed, and the
    calls made are, in order, [::open], [tcgetattr], [tcsetattr] and one
    [tcflush], all under the mutex. *)
Theorem openPort_success_state
    (s : machine) (port_name : string) (baud_rate : Z) :
  fd_ (obj s) < 0 ->
  fst (openPort port_name baud_rate s) = true ->
  exists n tty,
    let s' := snd (openPort port_name baud_rate s) in
    let fd := Z.of_nat n in
    k_open port_name = Some n
    /\ k_tcgetattr fd = Some tty
    /\ fd_ (obj s') = fd
    /\ open_fds s' = fd :: open_fds s
    /\ running_ (obj s') = running_ (obj s)
    /\ mav_recv_thread_ (obj s') = mav_recv_thread_ (obj s)
    /\ filter is_fd_op (events_of (openPort port_name baud_rate) s)
       = [EvOpen port_name fd; EvTcgetattr fd true;
          EvTcsetattr fd (configure_tty tty (speed_of_baud baud_rate)) true;
          EvTcflush fd]
    /\ guarded (events_of (openPort port_name baud_rate) s) = true.
Proof.
  intros Hfd. unfold events_of.
  rewrite (openPort_closed_spec s port_name baud_rate Hfd).
  destruct (k_open port_name) as [n|] eqn:Eo; [|discriminate].
  cbv zeta. destruct (k_tcgetattr (Z.of_nat n)) as [tty|] eqn:Eg;
    [|discriminate].
  destruct (k_tcsetattr (Z.of_nat n)
              (configure_tty tty (speed_of_baud baud_rate))) eqn:Ek;
    [|discriminate].
  intros _. exists n, tty. cbn [snd with_trace trace].
  rewrite skipn_length_app.
  repeat split; try assumption;
    destruct (supported_baud baud_rate); reflexivity.
Qed.

(** A property of bit positions that holds at each of 0 to 15 holds below
    16. *)
Lemma bit_position_below_16 (P : Z -> Prop) :
  P 0 -> P 1 -> P 2 -> P 3 -> P 4 -> P 5 -> P 6 -> P 7 ->
  P 8 -> P 9 -> P 10 -> P 11 -> P 12 -> P 13 -> P 14 -> P 15 ->
  forall n, 0 <= n < 16 -> P n.
Proof.
  intros P0 P1 P2 P3 P4 P5 P6 P7 P8 P9 P10 P11 P12 P13 P14 P15 n Hn.
  destruct n as [|p|p]; [exact P0| |lia].
  do 4 (try destruct p as [p|p|]); try assumption; lia.
Qed.

(** The flag words of the settings [openPort] computes, in terms of the
    ones [tcgetattr] gave. *)
Lemma configure_tty_flags (tty : termios) (speed : Z) :
  (exists with_speed : Z,
      c_cflag (configure_tty tty speed)
      = Z.lor
          (clear_bits
             (Z.lor
                (clear_bits
                   (clear_bits (Z.lor (clear_bits with_speed CSIZE) CS8)
                      PARENB)
                   CSTOPB)
                (Z.lor CLOCAL CREAD))
             (Z.lor CSIZE PARENB))
          CS8)
  /\ c_lflag (configure_tty tty speed)
     = clear_bits (c_lflag tty)
         (Z.lor ECHO (Z.lor ECHONL (Z.lor ICANON (Z.lor ISIG IEXTEN))))
  /\ c_oflag (configure_tty tty speed) = clear_bits (c_oflag tty) OPOST
  /\ c_cc_VMIN (configure_tty tty speed) = 1
  /\ c_cc_VTIME (configure_tty tty speed) = 0.
Proof.
  destruct (cfsetispeed_fields (cfsetospeed tty speed) speed)
    as (_ & _ & Hl & Ho).
  split; [|split; [|split; [|split]]].
  - exists (c_cflag (cfsetispeed (cfsetospeed tty speed) speed)).
    reflexivity.
  - change (c_lflag (configure_tty tty speed))
      with (clear_bits (c_lflag (cfsetispeed (cfsetospeed tty speed) speed))
              (Z.lor ECHO
                 (Z.lor ECHONL (Z.lor ICANON (Z.lor ISIG IEXTEN))))).
    rewrite Hl. reflexivity.
  - change (c_oflag (configure_tty tty speed))
      with (clear_bits (c_oflag (cfsetispeed (cfsetospeed tty speed) speed))
              OPOST).
    rewrite Ho. reflexivity.
  - reflexivity.
  - reflexivity.
Qed.

(** The settings [openPort] hands to [tcsetattr]: eight data bits, no
    parity, one stop bit, modem lines ignored, receiver on; no echo, no
    line editing, no signals, no output processing; reads return from one
    byte on, with no timer. *)
Lemma configure_tty_8N1_raw (tty : termios) (speed : Z) :
  let t := configure_tty tty speed in
  Z.land (c_cflag t) CSIZE = CS8
  /\ Z.land (c_cflag t) PARENB = 0
  /\ Z.land (c_cflag t) CSTOPB = 0
  /\ Z.land (c_cflag t) CLOCAL = CLOCAL
  /\ Z.land (c_cflag t) CREAD = CREAD
  /\ Z.land (c_lflag t) (Z.lor ECHO (Z.lor ICANON ISIG)) = 0
  /\ Z.land (c_oflag t) OPOST = 0
  /\ c_cc_VMIN t = 1
  /\ c_cc_VTIME t = 0.
Proof.
  cbv zeta.
  destruct (configure_tty_flags tty speed)
    as ((xc & Hc) & Hl & Ho & Hmin & Htime).
  rewrite Hc, Hl, Ho, Hmin, Htime.
  generalize (c_lflag tty) (c_oflag tty).
  intros xl xo. clear.
  unfold clear_bits, CSIZE, CS8, PARENB, CSTOPB, CLOCAL, CREAD, ECHO, ECHONL,
    ICANON, ISIG, IEXTEN, OPOST.
  change (Z.lor 2048 128) with 2176. change (Z.lor 48 256) with 304.
  change (Z.lor 8 (Z.lor 64 (Z.lor 2 (Z.lor 1 32768)))) with 32843.
  change (Z.lor 8 (Z.lor 2 1)) with 11.
  repeat split.
  - flag_bits xc bit_position_below_16.
  - flag_bits xc bit_position_below_16.
  - flag_bits xc bit_position_below_16.
  - flag_bits xc bit_position_below_16.
  - flag_bits xc bit_position_below_16.
  - flag_bits xl bit_position_below_16.
  - flag_bits xo bit_position_below_16.
Qed.

(** X3. Whatever the line's previous settings and whatever rate is asked
    for, every [tcsetattr] call [openPort] makes asks for eight data bits,
    no parity, one stop bit, local mode with the receiver enabled, and raw
    mode (no echo, no canonical input, no signals, no output processing,
    reads that return from the first byte on). *)
Theorem openPort_asks_for_8N1_raw
    (s : machine) (port_name : string) (baud_rate : Z)
    (fd : Z) (t : termios) (ok : bool) :
  In (EvTcsetattr fd t ok) (events_of (openPort port_name baud_rate) s) ->
  Z.land (c_cflag t) CSIZE = CS8
  /\ Z.land (c_cflag t) PARENB = 0
  /\ Z.land (c_cflag t) CSTOPB = 0
  /\ Z.land (c_cflag t) CLOCAL = CLOCAL
  /\ Z.land (c_cflag t) CREAD = CREAD
  /\ Z.land (c_lflag t) (Z.lor ECHO (Z.lor ICANON ISIG)) = 0
  /\ Z.land (c_oflag t) OPOST = 0
  /\ c_cc_VMIN t = 1
  /\ c_cc_VTIME t = 0.
Proof.
  intros Hin.
  assert (Ht : exists tty speed, t = configure_tty tty speed).
  { revert Hin. unfold events_of.
    destruct (Z.lt_ge_cases (fd_ (obj s)) 0) as [Hfd|Hfd].
    - rewrite (openPort_closed_spec s port_name baud_rate Hfd).
      destruct (k_open port_name) as [n|].
      + cbv zeta. destruct (k_tcgetattr (Z.of_nat n)) as [tty|].
        * destruct (k_tcsetattr (Z.of_nat n)
                      (configure_tty tty (speed_of_baud baud_rate)));
            cbn [snd with_trace trace]; rewrite skipn_length_app;
            destruct (supported_baud baud_rate); cbn [app In];
            intros Hin;
            repeat (destruct Hin as [Hin|Hin]; try discriminate Hin;
                    try (inversion Hin; eexists _, _; reflexivity));
            contradiction.
        * cbn [snd with_trace trace]. rewrite skipn_length_app.
          cbn [In]. intros Hin.
          repeat (destruct Hin as [Hin|Hin]; try discriminate Hin).
          contradiction.
      + cbn [snd with_trace trace]. rewrite skipn_length_app.
        cbn [In]. intros Hin.
        repeat (destruct Hin as [Hin|Hin]; try discriminate Hin).
        contradiction.
    - rewrite (openPort_held s port_name baud_rate Hfd).
      cbn [snd with_trace trace]. rewrite skipn_length_app.
      cbn [In]. intros Hin.
      repeat (destruct Hin as [Hin|Hin]; try discriminate Hin).
      contradiction. }
  destruct Ht as (tty & speed & ->).
  exact (configure_tty_8N1_raw tty speed).
Qed.

(** X4. [closePort] is idempotent: after it the object holds no descriptor,
    and a second [closePort] makes no system call, logs nothing and changes
    neither the object nor the process's descriptors. *)
Theorem closePort_idempotent (s : machine) :
  let s1 := snd (closePort s) in
  fd_ (obj s1) < 0
  /\ events_of closePort s1 = [EvLock; EvUnlock]
  /\ obj (snd (closePort s1)) = obj s1
  /\ open_fds (snd (closePort s1)) = open_fds s1.
Proof.
  cbv zeta. pose proof (closePort_closes s) as Hc.
  split; [exact Hc|].
  unfold events_of. rewrite (closePort_spec (snd (closePort s))).
  destruct (0 <=? fd_ (obj (snd (closePort s)))) eqn:E;
    [apply Z.leb_le in E; lia|].
  cbn [snd with_trace trace obj open_fds]. rewrite skipn_length_app.
  repeat split.
Qed.

(** X5. However [openPort] ends on an object that held no descriptor
    (success, or failure at any step), a following [closePort] leaves the
    process with exactly the descriptors it had before the two calls, and
    the object with none. *)
Theorem openPort_then_closePort_restores_descriptors
    (s : machine) (port_name : string) (baud_rate : Z) :
  fd_ (obj s) < 0 ->
  let s2 := snd (closePort (snd (openPort port_name baud_rate s))) in
  open_fds s2 = open_fds s /\ fd_ (obj s2) < 0.
Proof.
  intros Hfd. cbv zeta. split; [|apply closePort_closes].
  rewrite closePort_spec.
  rewrite (openPort_closed_spec s port_name baud_rate Hfd).
  destruct (k_open port_name) as [n|].
  - cbv zeta. destruct (k_tcgetattr (Z.of_nat n)) as [tty|].
    + destruct (k_tcsetattr (Z.of_nat n)
                  (configure_tty tty (speed_of_baud baud_rate)));
        run_monad.
      * destruct (0 <=? Z.of_nat n) eqn:E; [|apply Z.leb_gt in E; lia].
        run_monad. apply release_fd_head.
      * change (0 <=? -1) with false. reflexivity.
    + run_monad. change (0 <=? -1) with false. reflexivity.
  - run_monad. change (0 <=? -1) with false. reflexivity.
Qed.

End PortHandleMore.

(** ** Sending *)

Section SendMore.
Context `{Dialect} `{Kernel}.

(** [writeData] on an object that holds a descriptor. *)
Lemma writeData_open_spec (s : machine) (data : list Z) :
  0 <= fd_ (obj s) ->
  writeData data s
  = (tt, with_trace
           (trace s
            ++ EvLock
               :: EvWrite (fd_ (obj s)) data (k_write (fd_ (obj s)) data)
               :: (if k_write (fd_ (obj s)) data <? 0
                   then [EvLog ERROR "writeData failed: %s"] else [])
               ++ [EvUnlock])
           s).
Proof.
  intros Hfd. unfold writeData. run_monad.
  destruct (fd_ (obj s) <? 0) eqn:E; [apply Z.ltb_lt in E; lia|].
  run_monad.
  destruct (k_write (fd_ (obj s)) data <? 0); run_monad; trace_norm;
    reflexivity.
Qed.

(** X6. [send] on an object that holds a descriptor makes exactly one
    [::write] call, under the mutex, with the whole encoded frame.  Whatever
    count the call returns, it is not repeated: a short write is neither
    retried nor reported, a negative result is logged as an error, and in
    every case "PUSH" is logged and the object is unchanged. *)
Theorem send_writes_once
    (s : machine) (jfi_msg : mavlink_jfi_t) (tid : Z) (data : list Z) :
  0 <= fd_ (obj s) ->
  let fd := fd_ (obj s) in
  let bytes :=
    send_buffer (obj s) (current_tx_seq (chan0 s)) jfi_msg tid data in
  events_of (send jfi_msg tid data) s
  = EvLock :: EvWrite fd bytes (k_write fd bytes)
    :: (if k_write fd bytes <? 0
        then [EvLog ERROR "writeData failed: %s"] else [])
    ++ [EvUnlock; EvLog INFO "PUSH"]
  /\ obj (snd (send jfi_msg tid data s)) = obj s
  /\ open_fds (snd (send jfi_msg tid data s)) = open_fds s.
Proof.
  intros Hfd. cbv zeta. unfold events_of, send. run_monad.
  match goal with
  | |- context [writeData ?d ?s1] =>
      rewrite (writeData_open_spec s1 d Hfd)
  end.
  run_monad. trace_norm. rewrite skipn_length_app.
  destruct (k_write _ _ <? 0); repeat split.
Qed.

(** X7. [send] does not clear the message it fills in: with a payload
    shorter than the data array, the array's elements from the payload's
    length on are what the uninitialised local variable held on entry, and
    only the [len] field tells them apart from payload. *)
Theorem send_fill_keeps_stale_bytes
    (jfi_msg : mavlink_jfi_t) (tid : Z) (data : list Z) (i : nat) (d : Z) :
  (List.length data <= JFI_DATA_LEN)%nat ->
  (List.length data <= i)%nat ->
  nth i (jfi_data (send_fill jfi_msg tid data)) d
  = nth i (jfi_data jfi_msg) d
  /\ jfi_len (send_fill jfi_msg tid data)
     = uint8 (Z.of_nat (List.length data)).
Proof.
  intros Hcap Hi. unfold send_fill, memcpy. cbn [jfi_data jfi_len].
  rewrite (Nat.min_l _ _ Hcap). split; [|reflexivity].
  rewrite firstn_all, app_nth2 by lia.
  rewrite nth_skipn. f_equal. lia.
Qed.

End SendMore.

(** ** Receiving *)

Section ReceiveMore.
Context `{Dialect} `{Kernel} `{Overread}.

Lemma frames_events_report (cb : option callback)
    (l : list mavlink_message_t) :
  forall mems : list (nat -> Z),
    Forall (fun e => is_report e = true) (frames_events cb l mems).
Proof.
  unfold frames_events.
  induction l as [|m l IH]; intros mems; [constructor|].
  destruct mems as [|mem mems]; [constructor|].
  cbn [combine flat_map fst snd]. apply Forall_app. split; [|apply IH].
  unfold frame_events.
  destruct (msgid m =? MAVLINK_MSG_ID_JFI); [destruct cb|];
    repeat constructor.
Qed.

(** X9. Handling received bytes does no input or output and touches nothing
    but the codec state: every event it produces is a log line or a handler
    invocation, and the object, the process's descriptors and the pending
    reads are as before. *)
Theorem feed_only_reports (rx : list Z) (s : machine) :
  Forall (fun e => is_report e = true) (events_of (feed rx) s)
  /\ obj (snd (feed rx s)) = obj s
  /\ open_fds (snd (feed rx s)) = open_fds s
  /\ pending_reads (snd (feed rx s)) = pending_reads s
  /\ terminated (snd (feed rx s)) = terminated s.
Proof.
  split.
  - destruct (feed_events rx s) as (mems & _ & ->).
    apply frames_events_report.
  - destruct (feed_frame rx s) as (Ho & Hf & Hp & Ht & _).
    repeat split; assumption.
Qed.

(** X10. With no handler registered, received frames are still parsed and
    announced, one log line each ("RECV" for the recognised type, a warning
    for any other), and then dropped: no handler is ever invoked. *)
Theorem feed_without_handler (rx : list Z) (s : machine) :
  receive_callback_ (obj s) = None ->
  events_of (feed rx) s
  = map (fun m => if msgid m =? MAVLINK_MSG_ID_JFI
                  then EvLog INFO "RECV"
                  else EvLog WARN "Unknown message ID: %d")
      (snd (parse_stream rx (chan0 s))).
Proof.
  intros Hcb. destruct (feed_events rx s) as (mems & Hl & ->).
  rewrite Hcb. unfold frames_events. revert mems Hl.
  induction (snd (parse_stream rx (chan0 s))) as [|m l IH];
    intros mems Hl; [reflexivity|].
  destruct mems as [|mem mems]; [discriminate Hl|].
  cbn [combine flat_map map fst snd].
  rewrite (IH mems) by (cbn [List.length] in Hl; lia).
  unfold frame_events.
  destruct (msgid m =? MAVLINK_MSG_ID_JFI); reflexivity.
Qed.

(** X11. While the object holds no descriptor, a pass of the receiver loop
    makes no [::read]: it waits 10 ms, with the mutex held during the wait,
    and changes nothing. *)
Theorem recvMavLoop_body_closed (s : machine) :
  fd_ (obj s) < 0 ->
  recvMavLoop_body s
  = (tt, with_trace (trace s ++ [EvLock; EvSleep 10; EvUnlock]) s).
Proof.
  intros Hfd. unfold recvMavLoop_body. unfold bind at 1.
  rewrite port_is_open_spec.
  destruct (fd_ (obj s) <? 0) eqn:E; [|apply Z.ltb_ge in E; lia].
  reflexivity.
Qed.

(** X12. A pass of the receiver loop on an object that holds a descriptor
    makes one [::read] of at most 256 bytes, after releasing the mutex.  A
    failed read is logged and followed by a 10 ms wait, an empty one by a
    5 ms wait and no log line, and neither disturbs the codec state; bytes
    read are fed to the codec at once, with no wait, and the frames they
    complete are handled one by one (a recognised frame goes to the handler
    with the [len] bytes read from its data on). *)
Theorem recvMavLoop_body_open (s : machine) :
  0 <= fd_ (obj s) ->
  let fd := fd_ (obj s) in
  let n := fst (fst (sys_read fd 256 s)) in
  let rx := snd (fst (sys_read fd 256 s)) in
  let frames := snd (parse_stream rx (chan0 s)) in
  (exists mems : list (nat -> Z),
      List.length mems = List.length frames
      /\ events_of recvMavLoop_body s
         = EvLock :: EvUnlock :: EvRead fd n
           :: (if n <? 0 then [EvLog ERROR "read() failed: %s"; EvSleep 10]
               else if n =? 0 then [EvSleep 5]
               else frames_events (receive_callback_ (obj s)) frames mems))
  /\ chan0 (snd (recvMavLoop_body s))
     = (if 0 <? n then fst (parse_stream rx (chan0 s)) else chan0 s).
Proof.
  intros Hfd. cbv zeta.
  unfold events_of, recvMavLoop_body. unfold bind at 1 2.
  rewrite port_is_open_spec.
  destruct (fd_ (obj s) <? 0) eqn:E; [apply Z.ltb_lt in E; lia|].
  unfold read_and_feed, sys_read. run_monad.
  destruct (holds_fd (fd_ (obj s)) (open_fds s)).
  - destruct (pending_reads s) as [|[bytes|] q]; run_monad.
    + change (0 <? 0) with false. change (0 =? 0) with true. run_monad.
      trace_norm. rewrite skipn_length_app.
      split; [exists []; split; reflexivity | reflexivity].
    + destruct (Z.of_nat (List.length (firstn 256 bytes)) <? 0) eqn:En;
        [apply Z.ltb_lt in En; lia|].
      destruct (Z.of_nat (List.length (firstn 256 bytes)) =? 0) eqn:Ez;
        run_monad.
      * apply Z.eqb_eq in Ez.
        replace (0 <? Z.of_nat (List.length (firstn 256 bytes))) with false
          by (symmetry; apply Z.ltb_ge; lia).
        assert (Hnil : firstn 256 bytes = []).
        { destruct (firstn 256 bytes); [reflexivity|].
          cbn [List.length] in Ez. lia. }
        trace_norm. rewrite skipn_length_app, Hnil.
        split; [exists []; split; reflexivity | reflexivity].
      * apply Z.eqb_neq in Ez.
        replace (0 <? Z.of_nat (List.length (firstn 256 bytes))) with true
          by (symmetry; apply Z.ltb_lt; lia).
        match goal with
        | |- context [feed ?rx ?s1] =>
            destruct (feed_spec rx s1) as (mems & Hl & ->)
        end.
        run_monad. trace_norm. rewrite skipn_length_app.
        split; [exists mems; split; [exact Hl | reflexivity] | reflexivity].
    + change (-1 <? 0) with true. change (0 <? -1) with false. run_monad.
      trace_norm. rewrite skipn_length_app.
      split; [exists []; split; reflexivity | reflexivity].
  - change (-1 <? 0) with true. change (0 <? -1) with false. run_monad.
    trace_norm. rewrite skipn_length_app.
    split; [exists []; split; reflexivity | reflexivity].
Qed.

End ReceiveMore.

(** ** The loop as a whole *)

Section LoopMore.
Context `{Dialect} `{Kernel} `{Overread}.

Lemma quiet_no_lock (l : list event) :
  Forall (fun e => is_quiet e = true) l -> filter is_lock l = [].
Proof.
  induction 1 as [|e l He _ IH]; [reflexivity|].
  cbn [filter]. rewrite IH. destruct e; try discriminate He; reflexivity.
Qed.

Lemma quiet_no_mutation (l : list event) :
  Forall (fun e => is_quiet e = true) l ->
  Forall (fun e => mutates_port e = false) l.
Proof.
  induction 1 as [|e l He _ IH]; constructor; [|exact IH].
  destruct e; try discriminate He; reflexivity.
Qed.

Lemma frames_events_quiet (cb : option callback)
    (l : list mavlink_message_t) :
  forall mems : list (nat -> Z),
    Forall (fun e => is_quiet e = true) (frames_events cb l mems).
Proof.
  unfold frames_events.
  induction l as [|m l IH]; intros mems; [constructor|].
  destruct mems as [|mem mems]; [constructor|].
  cbn [combine flat_map fst snd]. apply Forall_app. split; [|apply IH].
  unfold frame_events.
  destruct (msgid m =? MAVLINK_MSG_ID_JFI); [destruct cb|];
    repeat constructor.
Qed.

(** The shape of one pass of the loop body. *)
Lemma recvMavLoop_body_shape (s : machine) :
  exists l,
    trace (snd (recvMavLoop_body s)) = trace s ++ l
    /\ obj (snd (recvMavLoop_body s)) = obj s
    /\ open_fds (snd (recvMavLoop_body s)) = open_fds s
    /\ terminated (snd (recvMavLoop_body s)) = terminated s
    /\ (l = [EvLock; EvSleep 10; EvUnlock]
        \/ exists n rest,
             l = EvLock :: EvUnlock :: EvRead (fd_ (obj s)) n :: rest
             /\ Forall (fun e => is_quiet e = true) rest).
Proof.
  unfold recvMavLoop_body. unfold bind at 1 2 3 4.
  rewrite port_is_open_spec.
  destruct (fd_ (obj s) <? 0) eqn:E.
  { eexists. cbn [snd with_trace trace obj open_fds terminated].
    repeat split. left. reflexivity. }
  unfold read_and_feed, sys_read. run_monad.
  destruct (holds_fd (fd_ (obj s)) (open_fds s)).
  - destruct (pending_reads s) as [|[bytes|] q]; run_monad.
    + change (0 <? 0) with false. change (0 =? 0) with true. run_monad.
      trace_norm. eexists. repeat split. right. eexists _, _.
      split; [reflexivity|]. repeat constructor.
    + destruct (Z.of_nat (List.length (firstn 256 bytes)) <? 0) eqn:En;
        [apply Z.ltb_lt in En; lia|].
      destruct (Z.of_nat (List.length (firstn 256 bytes)) =? 0); run_monad.
      * trace_norm. eexists. repeat split. right. eexists _, _.
        split; [reflexivity|]. repeat constructor.
      * match goal with
        | |- context [feed ?rx ?s1] =>
            destruct (feed_spec rx s1) as (mems & _ & ->)
        end.
        run_monad. trace_norm.
        eexists. repeat split. right. eexists _, _.
        split; [reflexivity|]. apply frames_events_quiet.
    + change (-1 <? 0) with true. run_monad. trace_norm.
      eexists. repeat split. right. eexists _, _.
      split; [reflexivity|]. repeat constructor.
  - change (-1 <? 0) with true. run_monad. trace_norm.
    eexists. repeat split. right. eexists _, _.
    split; [reflexivity|]. repeat constructor.
Qed.

Lemma recvMavLoop_S (fuel : nat) (s : machine) :
  recvMavLoop (S fuel) s
  = if running_ (obj s) then recvMavLoop fuel (snd (recvMavLoop_body s))
    else (tt, s).
Proof.
  cbn [recvMavLoop]. unfold bind, get_running.
  destruct (running_ (obj s)); [|reflexivity].
  destruct (recvMavLoop_body s); reflexivity.
Qed.

Lemma recvMavLoop_shape (fuel : nat) :
  forall s : machine,
    exists l,
      trace (snd (recvMavLoop fuel s)) = trace s ++ l
      /\ obj (snd (recvMavLoop fuel s)) = obj s
      /\ open_fds (snd (recvMavLoop fuel s)) = open_fds s
      /\ terminated (snd (recvMavLoop fuel s)) = terminated s
      /\ Forall (fun e => mutates_port e = false) l
      /\ List.length (filter is_lock l)
         = (if running_ (obj s) then fuel else 0%nat).
Proof.
  induction fuel as [|fuel IH]; intros s.
  - exists []. cbn. rewrite app_nil_r. repeat split; try constructor.
    destruct (running_ (obj s)); reflexivity.
  - rewrite recvMavLoop_S.
    destruct (running_ (obj s)) eqn:Er.
    + destruct (recvMavLoop_body_shape s)
        as (l1 & Ht1 & Ho1 & Hf1 & Htm1 & Hshape).
      destruct (recvMavLoop_body s) as [u s1]. cbn [snd] in *.
      destruct (IH s1) as (l2 & Ht2 & Ho2 & Hf2 & Htm2 & Hm2 & Hc2).
      exists (l1 ++ l2).
      rewrite Ht2, Ht1, Ho2, Ho1, Hf2, Hf1, Htm2, Htm1, app_assoc.
      rewrite Ho1, Er in Hc2.
      repeat split.
      * apply Forall_app. split; [|exact Hm2].
        destruct Hshape as [->|(n & rest & -> & Hq)].
        -- repeat constructor.
        -- repeat constructor. apply quiet_no_mutation. exact Hq.
      * rewrite filter_app, length_app, Hc2.
        destruct Hshape as [->|(n & rest & -> & Hq)].
        -- reflexivity.
        -- cbn [filter is_lock]. rewrite (quiet_no_lock rest Hq).
           reflexivity.
    + exists []. cbn. rewrite app_nil_r. repeat split; constructor.
Qed.

(** X13. The receiver loop only reads and reports: however many passes it
    makes and whatever the reads return, it never opens, closes,
    reconfigures or writes to a descriptor and never starts or joins a
    thread, and it leaves the object's fields and the process's descriptors
    as they were.  In particular it never clears [running_]: with the flag
    set it makes every pass it is given (one mutex acquisition each), with
    the flag clear it makes none. *)
Theorem recvMavLoop_only_reads (fuel : nat) (s : machine) :
  let s' := snd (recvMavLoop fuel s) in
  let evs := events_of (recvMavLoop fuel) s in
  obj s' = obj s
  /\ open_fds s' = open_fds s
  /\ terminated s' = terminated s
  /\ Forall (fun e => mutates_port e = false) evs
  /\ List.length (filter is_lock evs)
     = (if running_ (obj s) then fuel else 0%nat).
Proof.
  cbv zeta.
  destruct (recvMavLoop_shape fuel s) as (l & Ht & Ho & Hf & Htm & Hm & Hc).
  rewrite (events_of_app _ _ _ Ht). repeat split; assumption.
Qed.

End LoopMore.

(** ** The facade: how the operations compose *)

Section FacadeMore.
Context `{Dialect} `{Kernel}.

(** [init] in terms of [openPort]. *)
Lemma init_spec
    (s : machine) (recv_cb : option callback) (port_name : string)
    (baud_rate system_id component_id : Z) :
  init recv_cb port_name baud_rate system_id component_id s
  = let s1 := snd (set_identity recv_cb system_id component_id s) in
    let s2 := snd (openPort port_name baud_rate s1) in
    if fst (openPort port_name baud_rate s1) then
      (true,
       let s3 :=
         with_trace (trace s2 ++ [EvThreadStart])
           (snd (set_running true s2)) in
       if mav_recv_thread_ (obj s2) then with_terminated true s3
       else snd (set_thread true s3))
    else
      (false,
       with_trace
         (trace s2
          ++ [EvLog ERROR "Failed to open port. Receiver thread not started."])
         s2).
Proof.
  cbv zeta.
  set (s1 := snd (set_identity recv_cb system_id component_id s)).
  unfold init, bind.
  change (set_identity recv_cb system_id component_id s) with (tt, s1).
  cbv beta iota. clearbody s1.
  destruct (openPort port_name baud_rate s1) as [r s2].
  cbn [fst snd]. destruct r; unfold start_thread; run_monad.
  - destruct (mav_recv_thread_ (obj s2)); reflexivity.
  - reflexivity.
Qed.

Lemma openPort_false_fd (s : machine) (port_name : string) (baud_rate : Z) :
  fst (openPort port_name baud_rate s) = false ->
  fd_ (obj (snd (openPort port_name baud_rate s))) = -1.
Proof.
  destruct (Z.lt_ge_cases (fd_ (obj s)) 0) as [Hfd|Hfd].
  - rewrite (openPort_closed_spec s port_name baud_rate Hfd).
    destruct (k_open port_name) as [n|];
      [cbv zeta; destruct (k_tcgetattr (Z.of_nat n)) as [tty|];
       [destruct (k_tcsetattr (Z.of_nat n)
                    (configure_tty tty (speed_of_baud baud_rate)))|]|];
      cbn [fst snd]; intros F; try discriminate F; reflexivity.
  - rewrite (openPort_held s port_name baud_rate Hfd). discriminate.
Qed.

(** Where [openPort] leaves the descriptor, on an object that held none. *)
Lemma openPort_closed_summary
    (s : machine) (port_name : string) (baud_rate : Z) :
  fd_ (obj s) < 0 ->
  let r := fst (openPort port_name baud_rate s) in
  let s' := snd (openPort port_name baud_rate s) in
  (r = true
   /\ exists n, k_open port_name = Some n
                /\ fd_ (obj s') = Z.of_nat n
                /\ open_fds s' = Z.of_nat n :: open_fds s)
  \/ (r = false /\ fd_ (obj s') = -1 /\ open_fds s' = open_fds s).
Proof.
  intros Hfd. cbv zeta.
  rewrite (openPort_closed_spec s port_name baud_rate Hfd).
  destruct (k_open port_name) as [n|];
    [cbv zeta; destruct (k_tcgetattr (Z.of_nat n)) as [tty|];
     [destruct (k_tcsetattr (Z.of_nat n)
                  (configure_tty tty (speed_of_baud baud_rate)))|]|];
    cbn [fst snd]; [left | right | right | right];
    repeat split.
  exists n. repeat split.
Qed.

(** What the destructor leaves behind. *)
Lemma JFiComm_destroy_summary (s : machine) :
  let s' := snd (JFiComm_destroy s) in
  running_ (obj s') = false
  /\ mav_recv_thread_ (obj s') = false
  /\ fd_ (obj s') < 0
  /\ open_fds s'
     = (if 0 <=? fd_ (obj s) then release_fd (fd_ (obj s)) (open_fds s)
        else open_fds s)
  /\ terminated s' = terminated s.
Proof.
  cbv zeta. unfold JFiComm_destroy. run_monad.
  destruct (mav_recv_thread_ (obj s)) eqn:Ej; run_monad;
    rewrite closePort_spec; cbn [obj fd_];
    destruct (0 <=? fd_ (obj s)) eqn:E; run_monad;
    repeat split; try lia; apply Z.leb_gt in E; exact E.
Qed.

Lemma send_closed_events
    (s : machine) (jfi_msg : mavlink_jfi_t) (tid : Z) (data : list Z) :
  fd_ (obj s) < 0 ->
  events_of (send jfi_msg tid data) s = [EvLock; EvUnlock; EvLog INFO "PUSH"].
Proof.
  intros Hfd. unfold events_of, send. run_monad.
  match goal with
  | |- context [writeData ?d ?s1] =>
      rewrite (writeData_closed s1 d Hfd)
  end.
  run_monad. trace_norm. apply skipn_length_app.
Qed.

(** X14. [init] ends in [std::terminate] exactly when the port opens (or is
    already open) while the object's thread is still joinable, that is,
    when it is called a second time without the first thread having been
    joined; a failed [init], and a first [init], never do. *)
Theorem init_terminates_iff_thread_joinable
    (s : machine) (recv_cb : option callback) (port_name : string)
    (baud_rate system_id component_id : Z) :
  terminated
    (snd (init recv_cb port_name baud_rate system_id component_id s))
  = terminated s
    || (fst (init recv_cb port_name baud_rate system_id component_id s)
        && mav_recv_thread_ (obj s)).
Proof.
  rewrite init_spec. cbv zeta.
  set (s1 := snd (set_identity recv_cb system_id component_id s)).
  destruct (openPort_frame s1 port_name baud_rate)
    as (_ & _ & Hth & _ & _ & _ & Htm & _).
  change (mav_recv_thread_ (obj s1)) with (mav_recv_thread_ (obj s)) in Hth.
  change (terminated s1) with (terminated s) in Htm.
  clearbody s1.
  destruct (openPort port_name baud_rate s1) as [r s2]. cbn [fst snd] in *.
  destruct r; cbn [fst snd andb].
  - rewrite <- Hth. destruct (mav_recv_thread_ (obj s2)); run_monad;
      rewrite ?Htm.
    + apply eq_sym, orb_true_r.
    + apply eq_sym, orb_false_r.
  - run_monad. rewrite Htm. apply eq_sym, orb_false_r.
Qed.

(** X15. After an [init] that returned failure the object holds no
    descriptor, so every [send] that follows is dropped: it makes no
    [::write] and reports nothing but "PUSH". *)
Theorem send_after_failed_init_is_dropped
    (s : machine) (recv_cb : option callback) (port_name : string)
    (baud_rate system_id component_id : Z)
    (jfi_msg : mavlink_jfi_t) (tid : Z) (data : list Z) :
  fst (init recv_cb port_name baud_rate system_id component_id s) = false ->
  let s' := snd (init recv_cb port_name baud_rate system_id component_id s) in
  fd_ (obj s') = -1
  /\ events_of (send jfi_msg tid data) s'
     = [EvLock; EvUnlock; EvLog INFO "PUSH"].
Proof.
  intros Hf. cbv zeta.
  assert (Hfd : fd_ (obj (snd (init recv_cb port_name baud_rate system_id
                                 component_id s))) = -1).
  { revert Hf. rewrite init_spec. cbv zeta.
    destruct (fst (openPort port_name baud_rate
                     (snd (set_identity recv_cb system_id component_id s))))
      eqn:Eo; [discriminate|].
    intros _. cbn [snd with_trace obj].
    apply openPort_false_fd. exact Eo. }
  split; [exact Hfd|].
  apply send_closed_events. rewrite Hfd. lia.
Qed.

(** X16. After an [init] that opened the port, [send] writes to the
    descriptor [::open] returned, and the frame it writes carries the
    system and component ids given to that [init]. *)
Theorem send_after_init_uses_new_port_and_identity
    (s : machine) (recv_cb : option callback) (port_name : string)
    (baud_rate system_id component_id : Z)
    (jfi_msg : mavlink_jfi_t) (tid : Z) (data : list Z) :
  fd_ (obj s) < 0 ->
  fst (init recv_cb port_name baud_rate system_id component_id s) = true ->
  let s' := snd (init recv_cb port_name baud_rate system_id component_id s) in
  let bytes :=
    mavlink_msg_to_send_buffer
      (mavlink_msg_jfi_encode system_id component_id
         (current_tx_seq (chan0 s)) (send_fill jfi_msg tid data)) in
  exists n l,
    k_open port_name = Some n
    /\ events_of (send jfi_msg tid data) s'
       = EvLock :: EvWrite (Z.of_nat n) bytes (k_write (Z.of_nat n) bytes)
         :: l.
Proof.
  intros Hfd Hr. cbv zeta.
  destruct (init_stores_identity s recv_cb port_name baud_rate system_id
              component_id) as (_ & Hsys & Hcomp).
  assert (Hs : exists n,
             k_open port_name = Some n
             /\ fd_ (obj (snd (init recv_cb port_name baud_rate system_id
                                 component_id s))) = Z.of_nat n
             /\ chan0 (snd (init recv_cb port_name baud_rate system_id
                              component_id s)) = chan0 s).
  { revert Hr. rewrite init_spec. cbv zeta.
    set (s1 := snd (set_identity recv_cb system_id component_id s)).
    assert (Hfd1 : fd_ (obj s1) < 0) by exact Hfd.
    pose proof (openPort_closed_summary s1 port_name baud_rate Hfd1) as Hsum.
    destruct (openPort_frame s1 port_name baud_rate)
      as (_ & _ & _ & _ & _ & _ & _ & Hch).
    change (chan0 s1) with (chan0 s) in Hch.
    cbv zeta in Hsum. clearbody s1.
    destruct (openPort port_name baud_rate s1) as [r s2].
    cbn [fst snd] in *. intros Hr.
    destruct r; [|discriminate Hr].
    destruct Hsum as [(_ & n & Ho & Hn & _)|(F & _)]; [|discriminate F].
    exists n. split; [exact Ho|].
    destruct (mav_recv_thread_ (obj s2)); run_monad; split; assumption. }
  destruct Hs as (n & Ho & Hn & Hch).
  set (s' := snd (init recv_cb port_name baud_rate system_id component_id s))
    in *.
  assert (Hfd' : 0 <= fd_ (obj s')) by (rewrite Hn; lia).
  destruct (send_writes_buffer s' jfi_msg tid data Hfd') as (l & Hl).
  exists n, l. split; [exact Ho|].
  rewrite Hl. unfold send_buffer. rewrite Hn, Hch, Hsys, Hcomp. reflexivity.
Qed.

(** X17. The destructor joins the thread, if there is one, before it
    closes the port: the join precedes the [::close], which is made under
    the mutex on the descriptor held, if any.  Afterwards [running_] is
    false, the thread is not joinable and the object holds no descriptor.
    On an object that was never initialised it joins nothing and closes
    nothing. *)
Theorem JFiComm_destroy_joins_then_closes (s : machine) :
  let s' := snd (JFiComm_destroy s) in
  events_of JFiComm_destroy s
  = (if mav_recv_thread_ (obj s) then [EvThreadJoin] else [])
    ++ (if 0 <=? fd_ (obj s)
        then [EvLock; EvClose (fd_ (obj s)); EvLog INFO "Port closed";
              EvUnlock]
        else [EvLock; EvUnlock])
  /\ running_ (obj s') = false
  /\ mav_recv_thread_ (obj s') = false
  /\ fd_ (obj s') < 0
  /\ open_fds s'
     = (if 0 <=? fd_ (obj s) then release_fd (fd_ (obj s)) (open_fds s)
        else open_fds s).
Proof.
  cbv zeta. unfold events_of, JFiComm_destroy. run_monad.
  destruct (mav_recv_thread_ (obj s)) eqn:Ej; run_monad;
    rewrite closePort_spec; cbn [obj fd_];
    destruct (0 <=? fd_ (obj s)) eqn:E; run_monad; trace_norm;
    rewrite skipn_length_app; repeat split; try lia;
    apply Z.leb_gt in E; exact E.
Qed.

(** X18. [init] followed by teardown leaks nothing: on an object that held
    no descriptor and had no thread, whatever [init] returned, after the
    destructor the process has exactly the descriptors it started with, the
    object holds none, the flag is clear and no thread is left joinable. *)
Theorem init_then_destroy_restores
    (s : machine) (recv_cb : option callback) (port_name : string)
    (baud_rate system_id component_id : Z) :
  fd_ (obj s) < 0 ->
  mav_recv_thread_ (obj s) = false ->
  let s2 :=
    snd (JFiComm_destroy
           (snd (init recv_cb port_name baud_rate system_id component_id s)))
  in
  open_fds s2 = open_fds s
  /\ fd_ (obj s2) < 0
  /\ running_ (obj s2) = false
  /\ mav_recv_thread_ (obj s2) = false
  /\ terminated s2 = terminated s.
Proof.
  intros Hfd Hth. cbv zeta.
  set (s' := snd (init recv_cb port_name baud_rate system_id component_id s)).
  assert (Hs : terminated s' = terminated s
               /\ ((0 <= fd_ (obj s')
                    /\ open_fds s' = fd_ (obj s') :: open_fds s)
                   \/ (fd_ (obj s') = -1 /\ open_fds s' = open_fds s))).
  { subst s'. rewrite init_spec. cbv zeta.
    set (s1 := snd (set_identity recv_cb system_id component_id s)).
    assert (Hfd1 : fd_ (obj s1) < 0) by exact Hfd.
    pose proof (openPort_closed_summary s1 port_name baud_rate Hfd1) as Hsum.
    destruct (openPort_frame s1 port_name baud_rate)
      as (_ & _ & Hth2 & _ & _ & _ & Htm & _).
    change (open_fds s1) with (open_fds s) in Hsum.
    change (mav_recv_thread_ (obj s1)) with (mav_recv_thread_ (obj s)) in Hth2.
    change (terminated s1) with (terminated s) in Htm.
    rewrite Hth in Hth2. cbv zeta in Hsum. clearbody s1.
    destruct (openPort port_name baud_rate s1) as [r s2].
    cbn [fst snd] in *.
    destruct Hsum as [(-> & n & _ & Hn & Hf)|(-> & Hn & Hf)].
    - rewrite Hth2. run_monad. split; [exact Htm|].
      left. rewrite Hn, Hf. split; [lia | reflexivity].
    - run_monad. split; [exact Htm|]. right. split; assumption. }
  destruct Hs as (Htm & Hfds).
  destruct (JFiComm_destroy_summary s') as (Hr & Hj & Hc & Ho & Ht).
  clearbody s'.
  split; [|split; [exact Hc|split; [exact Hr|split; [exact Hj|]]]].
  - rewrite Ho. destruct Hfds as [(Hge & Hf)|(Hm & Hf)].
    + destruct (0 <=? fd_ (obj s')) eqn:E; [|apply Z.leb_gt in E; lia].
      rewrite Hf. apply release_fd_head.
    + rewrite Hm. change (0 <=? -1) with false. exact Hf.
  - rewrite Ht. exact Htm.
Qed.

End FacadeMore.

(** ** The mutex and the descriptor, across all methods *)

Section DisciplineMore.
Context `{Dialect} `{Kernel} `{Overread}.

Lemma quiet_mutex (l : list event) (held : bool) :
  Forall (fun e => is_quiet e = true) l ->
  mutex_ok_from held l = true
  /\ held_after held l = held
  /\ guarded_from held l = true.
Proof.
  induction 1 as [|e l He _ IH]; [repeat split|].
  destruct e; try discriminate He; cbn; exact IH.
Qed.

(** The events of [send], whatever the port's state. *)
Lemma send_events
    (s : machine) (jfi_msg : mavlink_jfi_t) (tid : Z) (data : list Z) :
  exists mid,
    events_of (send jfi_msg tid data) s
    = EvLock :: mid ++ [EvUnlock; EvLog INFO "PUSH"]
    /\ (mid = []
        \/ exists fd bytes n,
             mid = [EvWrite fd bytes n]
             \/ mid = [EvWrite fd bytes n;
                       EvLog ERROR "writeData failed: %s"]).
Proof.
  unfold events_of, send. run_monad.
  destruct (Z.lt_ge_cases (fd_ (obj s)) 0) as [Hfd|Hfd].
  - match goal with
    | |- context [writeData ?d ?s1] => rewrite (writeData_closed s1 d Hfd)
    end.
    run_monad. trace_norm. rewrite skipn_length_app.
    exists []. split; [reflexivity|]. left. reflexivity.
  - match goal with
    | |- context [writeData ?d ?s1] => rewrite (writeData_open_spec s1 d Hfd)
    end.
    run_monad. trace_norm. rewrite skipn_length_app.
    destruct (k_write _ _ <? 0); cbn [app].
    + eexists [_; _]. split; [reflexivity|]. right.
      eexists _, _, _. right. reflexivity.
    + eexists [_]. split; [reflexivity|]. right.
      eexists _, _, _. left. reflexivity.
Qed.

(** The events of [init], whatever the port's state. *)
Lemma init_events_disciplined
    (s : machine) (recv_cb : option callback) (port_name : string)
    (baud_rate system_id component_id : Z) :
  let evs :=
    events_of (init recv_cb port_name baud_rate system_id component_id) s in
  balanced evs = true /\ guarded evs = true.
Proof.
  cbv zeta. unfold events_of. rewrite init_spec. cbv zeta.
  set (s1 := snd (set_identity recv_cb system_id component_id s)).
  assert (Ht : trace s = trace s1) by reflexivity. rewrite Ht.
  assert (Hth : mav_recv_thread_ (obj s1) = mav_recv_thread_ (obj s))
    by reflexivity.
  clearbody s1.
  destruct (Z.lt_ge_cases (fd_ (obj s1)) 0) as [Hfd|Hfd].
  - rewrite (openPort_closed_spec s1 port_name baud_rate Hfd).
    destruct (k_open port_name) as [n|];
      [cbv zeta; destruct (k_tcgetattr (Z.of_nat n)) as [tty|];
       [destruct (k_tcsetattr (Z.of_nat n)
                    (configure_tty tty (speed_of_baud baud_rate)))|]|];
      cbn [fst snd]; run_monad; try destruct (mav_recv_thread_ (obj s1));
      run_monad; trace_norm; rewrite skipn_length_app;
      destruct (supported_baud baud_rate); split; reflexivity.
  - rewrite (openPort_held s1 port_name baud_rate Hfd).
    cbn [fst snd]. run_monad. destruct (mav_recv_thread_ (obj s1));
      run_monad; trace_norm; rewrite skipn_length_app; split; reflexivity.
Qed.

(** X19. Every method takes the mutex only when it does not already hold
    it and has released it when it returns: [openPort], [closePort],
    [writeData], [send] (which locks once, inside [writeData]), [init],
    the destructor, and a pass of the receiver loop. *)
Theorem methods_balance_the_mutex
    (s : machine) (recv_cb : option callback) (port_name : string)
    (baud_rate system_id component_id : Z)
    (jfi_msg : mavlink_jfi_t) (tid : Z) (data : list Z) :
  balanced (events_of (openPort port_name baud_rate) s) = true
  /\ balanced (events_of closePort s) = true
  /\ balanced (events_of (writeData data) s) = true
  /\ balanced (events_of (send jfi_msg tid data) s) = true
  /\ balanced
       (events_of (init recv_cb port_name baud_rate system_id component_id) s)
     = true
  /\ balanced (events_of JFiComm_destroy s) = true
  /\ balanced (events_of recvMavLoop_body s) = true.
Proof.
  split; [|split; [|split; [|split; [|split; [|split]]]]].
  - unfold events_of.
    destruct (Z.lt_ge_cases (fd_ (obj s)) 0) as [Hfd|Hfd].
    + rewrite (openPort_closed_spec s port_name baud_rate Hfd).
      destruct (k_open port_name) as [n|];
        [cbv zeta; destruct (k_tcgetattr (Z.of_nat n)) as [tty|];
         [destruct (k_tcsetattr (Z.of_nat n)
                      (configure_tty tty (speed_of_baud baud_rate)))|]|];
        cbn [snd with_trace trace]; rewrite skipn_length_app;
        destruct (supported_baud baud_rate); reflexivity.
    + rewrite (openPort_held s port_name baud_rate Hfd).
      cbn [snd with_trace trace]. rewrite skipn_length_app. reflexivity.
  - unfold events_of. rewrite closePort_spec.
    destruct (0 <=? fd_ (obj s)); cbn [snd with_trace trace];
      rewrite skipn_length_app; reflexivity.
  - unfold events_of.
    destruct (Z.lt_ge_cases (fd_ (obj s)) 0) as [Hfd|Hfd].
    + rewrite (writeData_closed s data Hfd).
      cbn [snd with_trace trace]. rewrite skipn_length_app. reflexivity.
    + rewrite (writeData_open_spec s data Hfd).
      cbn [snd with_trace trace]. rewrite skipn_length_app.
      destruct (k_write _ _ <? 0); reflexivity.
  - destruct (send_events s jfi_msg tid data)
      as (mid & -> & [->|(fd & bytes & n & [->| ->])]); reflexivity.
  - apply init_events_disciplined.
  - unfold events_of, JFiComm_destroy. run_monad.
    destruct (mav_recv_thread_ (obj s)); run_monad; rewrite closePort_spec;
      cbn [obj fd_]; destruct (0 <=? fd_ (obj s)); run_monad; trace_norm;
      rewrite skipn_length_app; reflexivity.
  - destruct (recvMavLoop_body_shape s) as (l & Ht & _ & _ & _ & Hshape).
    rewrite (events_of_app _ _ _ Ht).
    destruct Hshape as [->|(n & rest & -> & Hq)]; [reflexivity|].
    destruct (quiet_mutex rest false Hq) as (Hm & Hh & _).
    unfold balanced, mutex_ok. cbn. rewrite Hm, Hh. reflexivity.
Qed.

(** X20. [send], [init] and the destructor touch the descriptor only
    through the port-handle operations: every system call on a descriptor
    in their traces is made with the mutex held. *)
Theorem facade_calls_are_guarded
    (s : machine) (recv_cb : option callback) (port_name : string)
    (baud_rate system_id component_id : Z)
    (jfi_msg : mavlink_jfi_t) (tid : Z) (data : list Z) :
  guarded (events_of (send jfi_msg tid data) s) = true
  /\ guarded
       (events_of (init recv_cb port_name baud_rate system_id component_id) s)
     = true
  /\ guarded (events_of JFiComm_destroy s) = true.
Proof.
  split; [|split].
  - destruct (send_events s jfi_msg tid data)
      as (mid & -> & [->|(fd & bytes & n & [->| ->])]); reflexivity.
  - apply init_events_disciplined.
  - unfold events_of, JFiComm_destroy. run_monad.
    destruct (mav_recv_thread_ (obj s)); run_monad; rewrite closePort_spec;
      cbn [obj fd_]; destruct (0 <=? fd_ (obj s)); run_monad; trace_norm;
      rewrite skipn_length_app; reflexivity.
Qed.

Lemma holds_fd_head (fd : Z) (l : list Z) : holds_fd fd (fd :: l) = true.
Proof.
  unfold holds_fd. cbn [existsb]. rewrite Z.eqb_refl. reflexivity.
Qed.

Lemma openPort_consistent (s : machine) (port_name : string) (baud_rate : Z) :
  port_consistent s -> port_consistent (snd (openPort port_name baud_rate s)).
Proof.
  intros Hc. unfold port_consistent in *.
  destruct (Z.lt_ge_cases (fd_ (obj s)) 0) as [Hfd|Hfd].
  - rewrite (openPort_closed_spec s port_name baud_rate Hfd).
    destruct (k_open port_name) as [n|];
      [cbv zeta; destruct (k_tcgetattr (Z.of_nat n)) as [tty|];
       [destruct (k_tcsetattr (Z.of_nat n)
                    (configure_tty tty (speed_of_baud baud_rate)))|]|];
      run_monad; try (left; lia).
    right. apply holds_fd_head.
  - rewrite (openPort_held s port_name baud_rate Hfd).
    destruct Hc as [Hc|Hc]; [lia|]. right. exact Hc.
Qed.

(** X21. The object never holds a stale descriptor.  If [fd_] is negative
    or names a descriptor the process has, the same is true after
    [openPort], [closePort], [writeData], [send], [init], any number of
    passes of the receiver loop, and the destructor; and it is true of a
    freshly constructed object. *)
Theorem port_consistent_preserved
    (s : machine) (recv_cb : option callback) (port_name : string)
    (baud_rate system_id component_id : Z)
    (jfi_msg : mavlink_jfi_t) (tid : Z) (data : list Z) (fuel : nat) :
  port_consistent s ->
  port_consistent machine_new
  /\ port_consistent (snd (openPort port_name baud_rate s))
  /\ port_consistent (snd (closePort s))
  /\ port_consistent (snd (writeData data s))
  /\ port_consistent (snd (send jfi_msg tid data s))
  /\ port_consistent
       (snd (init recv_cb port_name baud_rate system_id component_id s))
  /\ port_consistent (snd (recvMavLoop fuel s))
  /\ port_consistent (snd (JFiComm_destroy s)).
Proof.
  intros Hc.
  split; [left; cbn; lia|].
  split; [apply openPort_consistent; exact Hc|].
  split; [left; apply closePort_closes|].
  assert (Hw : forall d s0, port_consistent s0 ->
                 port_consistent (snd (writeData d s0))).
  { intros d s0 Hc0. unfold port_consistent in *.
    destruct (Z.lt_ge_cases (fd_ (obj s0)) 0) as [Hfd|Hfd].
    - rewrite (writeData_closed s0 d Hfd). exact Hc0.
    - rewrite (writeData_open_spec s0 d Hfd). exact Hc0. }
  split; [apply Hw; exact Hc|].
  split.
  { unfold send. run_monad.
    match goal with
    | |- context [writeData ?d ?s1] =>
        pose proof (Hw d s1 Hc) as Hc1;
        destruct (writeData d s1) as [u s2]
    end.
    exact Hc1. }
  split.
  { rewrite init_spec. cbv zeta.
    set (s1 := snd (set_identity recv_cb system_id component_id s)).
    assert (Hc1 : port_consistent s1) by exact Hc.
    pose proof (openPort_consistent s1 port_name baud_rate Hc1) as Hc2.
    clearbody s1.
    destruct (openPort port_name baud_rate s1) as [r s2].
    cbn [fst snd] in *. destruct r; run_monad;
      [destruct (mav_recv_thread_ (obj s2))|]; exact Hc2. }
  split.
  { destruct (recvMavLoop_shape fuel s) as (l & _ & Ho & Hf & _).
    unfold port_consistent. rewrite Ho, Hf. exact Hc. }
  left. apply (JFiComm_destroy_stops_and_closes s).
Qed.

End DisciplineMore.

Section AfterClose.
Context `{Dialect} `{Kernel} `{Overread}.

(** X22. Once [closePort] has run, the object behaves as one that was never
    opened: a [send] is dropped without a [::write], and a pass of the
    receiver loop waits 10 ms without a [::read]. *)
Theorem closed_port_is_inert
    (s : machine) (jfi_msg : mavlink_jfi_t) (tid : Z) (data : list Z) :
  let s1 := snd (closePort s) in
  events_of (send jfi_msg tid data) s1 = [EvLock; EvUnlock; EvLog INFO "PUSH"]
  /\ events_of recvMavLoop_body s1 = [EvLock; EvSleep 10; EvUnlock].
Proof.
  cbv zeta. pose proof (closePort_closes s) as Hfd.
  split; [apply send_closed_events; exact Hfd|].
  unfold events_of, recvMavLoop_body. unfold bind.
  rewrite port_is_open_spec.
  destruct (fd_ (obj (snd (closePort s))) <? 0) eqn:E;
    [|apply Z.ltb_ge in E; lia].
  cbn [snd with_trace trace ret]. apply skipn_length_app.
Qed.

End AfterClose.
(** ** The theorems at concrete inputs *)

#[local] Existing Instance demo_dialect.
#[local] Existing Instance demo_kernel.
#[local] Existing Instance demo_memory.

(** A two-byte payload, tag 7, through [send] and back through the loop. *)
Lemma send_receive_round_trip_witness :
  (JFI_DATA_LEN <= 253)%nat
  /\ (List.length [10; 20] <= JFI_DATA_LEN)%nat
  /\ parse_state (chan0 demo_open) = WaitingForStart
  /\ events_of (feed (send_buffer JFiComm_new 0 demo_jfi 7 [10; 20])) demo_open
     = [EvLog INFO "RECV"; EvCallback 0%nat 7 [10; 20]].
Proof.
  assert (Hcap : (JFI_DATA_LEN <= 253)%nat) by (vm_compute; lia).
  assert (Hlen : (List.length [10; 20] <= JFI_DATA_LEN)%nat)
    by (vm_compute; lia).
  assert (Hst : parse_state (chan0 demo_open) = WaitingForStart)
    by reflexivity.
  split; [exact Hcap|]. split; [exact Hlen|]. split; [exact Hst|].
  exact (proj2 (send_receive_round_trip JFiComm_new 0 demo_jfi 7 [10; 20]
                  demo_open Hcap Hlen Hst)).
Defined.

(** A six-byte payload against a capacity of four. *)
Lemma send_truncates_long_payload_witness :
  (JFI_DATA_LEN <= 253)%nat
  /\ (JFI_DATA_LEN < List.length [10; 20; 30; 40; 50; 60])%nat
  /\ parse_state (chan0 demo_open) = WaitingForStart
  /\ events_of
       (feed (send_buffer JFiComm_new 0 demo_jfi 7 [10; 20; 30; 40; 50; 60]))
       demo_open
     = [EvLog INFO "RECV"; EvCallback 0%nat 7 [10; 20; 30; 40]].
Proof.
  assert (Hcap : (JFI_DATA_LEN <= 253)%nat) by (vm_compute; lia).
  assert (Hlen : (JFI_DATA_LEN < List.length [10; 20; 30; 40; 50; 60])%nat)
    by (vm_compute; lia).
  assert (Hst : parse_state (chan0 demo_open) = WaitingForStart)
    by reflexivity.
  split; [exact Hcap|]. split; [exact Hlen|]. split; [exact Hst|].
  exact (proj2 (send_truncates_long_payload JFiComm_new 0 demo_jfi 7
                  [10; 20; 30; 40; 50; 60] demo_open Hcap Hlen Hst)).
Defined.

(** C3, as stated, fails.  With descriptor 3 held, a pass of the receiver
    loop issues its [::read] outside the mutex; and when another thread runs
    [closePort] in the gap between the loop's test and its read, which the
    mutex allows, the read is issued on a descriptor that is no longer
    held and fails. *)
Lemma receiver_read_is_not_locked :
  guarded (events_of recvMavLoop_body demo_open) = false
  /\ events_of recvMavLoop_body_close_between demo_open
     = [EvLock; EvUnlock;
        EvLock; EvClose 3; EvLog INFO "Port closed"; EvUnlock;
        EvRead (-1) (-1); EvLog ERROR "read() failed: %s"; EvSleep 10]
  /\ mutex_ok (events_of recvMavLoop_body_close_between demo_open) = true.
Proof.
  repeat split.
Qed.

Lemma descriptor_operations_lock_discipline_witness :
  0 <= fd_ (obj demo_open)
  /\ exists n rest,
       events_of recvMavLoop_body demo_open
       = EvLock :: EvUnlock :: EvRead (fd_ (obj demo_open)) n :: rest.
Proof.
  assert (Hfd : 0 <= fd_ (obj demo_open)) by (cbn; lia).
  split; [exact Hfd|].
  exact (proj1 (proj2 (proj2 (proj2
           (descriptor_operations_lock_discipline demo_open "/dev/ttyUSB0"
              115200 []))) Hfd)).
Defined.

Lemma openPort_applies_baud_rate_witness :
  fd_ (obj demo_closed) < 0
  /\ k_open "/dev/ttyUSB0" = Some 3%nat
  /\ k_tcgetattr 3 = Some demo_tty
  /\ exists applied : termios,
       In (EvTcsetattr 3 applied true)
          (events_of (openPort "/dev/ttyUSB0" 57600) demo_closed)
       /\ speed_bps (c_ospeed applied) = Some 57600.
Proof.
  assert (Hfd : fd_ (obj demo_closed) < 0) by (cbn; lia).
  assert (Ho' : k_open "/dev/ttyUSB0" = Some 3%nat) by reflexivity.
  assert (Hg : k_tcgetattr (Z.of_nat 3) = Some demo_tty) by reflexivity.
  split; [exact Hfd|]. split; [exact Ho'|]. split; [exact Hg|].
  destruct (openPort_applies_baud_rate demo_closed "/dev/ttyUSB0" 57600
              3%nat demo_tty Hfd Ho' Hg)
    as (applied & _ & Hin & _ & Ho & _ & Hr).
  exists applied. split; [|exact Ho].
  change (fst (openPort "/dev/ttyUSB0" 57600 demo_closed)) with true in Hr.
  rewrite <- Hr in Hin. exact Hin.
Defined.

Lemma openPort_failure_leaves_closed_witness :
  fst (openPort "/dev/ttyUSB1" 9600 demo_closed) = false
  /\ fd_ (obj (snd (openPort "/dev/ttyUSB1" 9600 demo_closed))) = -1
  /\ open_fds (snd (openPort "/dev/ttyUSB1" 9600 demo_closed))
     = open_fds demo_closed.
Proof.
  assert (Hf : fst (openPort "/dev/ttyUSB1" 9600 demo_closed) = false)
    by reflexivity.
  split; [exact Hf|].
  exact (openPort_failure_leaves_closed demo_closed "/dev/ttyUSB1" 9600 Hf).
Defined.

Lemma send_on_closed_port_is_silent_witness :
  fd_ (obj demo_closed) < 0
  /\ events_of (send demo_jfi 7 [10; 20]) demo_closed
     = [EvLock; EvUnlock; EvLog INFO "PUSH"].
Proof.
  assert (Hfd : fd_ (obj demo_closed) < 0) by (cbn; lia).
  split; [exact Hfd|].
  exact (proj1 (send_on_closed_port_is_silent demo_closed demo_jfi 7
                  [10; 20] Hfd)).
Defined.

Lemma openPort_idempotent_witness :
  0 <= fd_ (obj demo_open)
  /\ events_of (openPort "/dev/ttyUSB1" 9600) demo_open = [EvLock; EvUnlock].
Proof.
  assert (Hfd : 0 <= fd_ (obj demo_open)) by (cbn; lia).
  split; [exact Hfd|].
  exact (proj1 (proj2 (openPort_idempotent demo_open "/dev/ttyUSB1" 9600
                         Hfd))).
Defined.


Lemma init_failure_overwrites_identity_witness :
  fst (init (Some 5%nat) "/dev/nope" 1234 42 43 demo_closed) = false
  /\ system_id_
       (obj (snd (init (Some 5%nat) "/dev/nope" 1234 42 43 demo_closed))) = 42
  /\ component_id_
       (obj (snd (init (Some 5%nat) "/dev/nope" 1234 42 43 demo_closed))) = 43.
Proof.
  assert (Hf : fst (init (Some 5%nat) "/dev/nope" 1234 42 43 demo_closed)
               = false) by reflexivity.
  split; [exact Hf|].
  destruct (init_failure_overwrites_identity demo_closed (Some 5%nat)
              "/dev/nope" 1234 42 43 Hf) as (_ & Hs & Hc & _).
  split; [exact Hs | exact Hc].
Defined.

(** ** The further properties at concrete inputs *)

Lemma openPort_succeeds_iff_witness :
  fd_ (obj demo_closed) < 0
  /\ (fst (openPort "/dev/ttyUSB1" 9600 demo_closed) = true
      <-> exists n tty,
            k_open "/dev/ttyUSB1" = Some n
            /\ k_tcgetattr (Z.of_nat n) = Some tty
            /\ k_tcsetattr (Z.of_nat n)
                 (configure_tty tty (speed_of_baud 9600)) = true).
Proof.
  assert (Hfd : fd_ (obj demo_closed) < 0) by (cbn; lia).
  split; [exact Hfd|].
  exact (openPort_succeeds_iff demo_closed "/dev/ttyUSB1" 9600 Hfd).
Defined.

Lemma openPort_success_state_witness :
  fd_ (obj demo_closed) < 0
  /\ fst (openPort "/dev/ttyUSB0" 57600 demo_closed) = true
  /\ exists n tty,
       k_open "/dev/ttyUSB0" = Some n
       /\ k_tcgetattr (Z.of_nat n) = Some tty
       /\ fd_ (obj (snd (openPort "/dev/ttyUSB0" 57600 demo_closed)))
          = Z.of_nat n
       /\ filter is_fd_op
            (events_of (openPort "/dev/ttyUSB0" 57600) demo_closed)
          = [EvOpen "/dev/ttyUSB0" 3; EvTcgetattr 3 true;
             EvTcsetattr 3
               {| c_iflag := 0; c_oflag := 4; c_cflag := 7345;
                  c_lflag := 2608; c_cc_VMIN := 1; c_cc_VTIME := 0;
                  c_ispeed := 4097; c_ospeed := 4097 |} true;
             EvTcflush 3].
Proof.
  assert (Hfd : fd_ (obj demo_closed) < 0) by (cbn; lia).
  assert (Hr : fst (openPort "/dev/ttyUSB0" 57600 demo_closed) = true)
    by reflexivity.
  split; [exact Hfd|]. split; [exact Hr|].
  destruct (openPort_success_state demo_closed "/dev/ttyUSB0" 57600 Hfd Hr)
    as (n & tty & Ho & Hg & Hf & _).
  exists n, tty. repeat split; assumption.
Defined.

Lemma openPort_asks_for_8N1_raw_witness :
  In (EvTcsetattr 3 (configure_tty demo_tty B57600) true)
     (events_of (openPort "/dev/ttyUSB0" 57600) demo_closed)
  /\ Z.land (c_cflag (configure_tty demo_tty B57600)) CSIZE = CS8
  /\ Z.land (c_cflag (configure_tty demo_tty B57600)) PARENB = 0.
Proof.
  assert (Hin : In (EvTcsetattr 3 (configure_tty demo_tty B57600) true)
                   (events_of (openPort "/dev/ttyUSB0" 57600) demo_closed)).
  { right. right. right. left. reflexivity. }
  split; [exact Hin|].
  destruct (openPort_asks_for_8N1_raw demo_closed "/dev/ttyUSB0" 57600 3
              (configure_tty demo_tty B57600) true Hin) as (H1 & H2 & _).
  split; [exact H1 | exact H2].
Defined.

Lemma openPort_then_closePort_restores_descriptors_witness :
  fd_ (obj demo_closed) < 0
  /\ open_fds
       (snd (closePort (snd (openPort "/dev/ttyUSB0" 9600 demo_closed))))
     = open_fds demo_closed.
Proof.
  assert (Hfd : fd_ (obj demo_closed) < 0) by (cbn; lia).
  split; [exact Hfd|].
  exact (proj1 (openPort_then_closePort_restores_descriptors demo_closed
                  "/dev/ttyUSB0" 9600 Hfd)).
Defined.

Lemma send_writes_once_witness :
  0 <= fd_ (obj demo_open)
  /\ obj (snd (send demo_jfi 7 [10; 20] demo_open)) = obj demo_open.
Proof.
  assert (Hfd : 0 <= fd_ (obj demo_open)) by (cbn; lia).
  split; [exact Hfd|].
  exact (proj1 (proj2 (send_writes_once demo_open demo_jfi 7 [10; 20] Hfd))).
Defined.

Lemma send_fill_keeps_stale_bytes_witness :
  (List.length [10; 20] <= JFI_DATA_LEN)%nat
  /\ (List.length [10; 20] <= 3)%nat
  /\ nth 3 (jfi_data (send_fill demo_jfi 7 [10; 20])) 0 = 221.
Proof.
  assert (Hcap : (List.length [10; 20] <= JFI_DATA_LEN)%nat)
    by (vm_compute; lia).
  assert (Hi : (List.length [10; 20] <= 3)%nat) by (vm_compute; lia).
  split; [exact Hcap|]. split; [exact Hi|].
  exact (proj1 (send_fill_keeps_stale_bytes demo_jfi 7 [10; 20] 3%nat 0
                  Hcap Hi)).
Defined.

Lemma feed_without_handler_witness :
  receive_callback_ (obj demo_closed) = None
  /\ events_of (feed (send_buffer JFiComm_new 0 demo_jfi 7 [10; 20]))
       demo_closed
     = [EvLog INFO "RECV"].
Proof.
  assert (Hcb : receive_callback_ (obj demo_closed) = None) by reflexivity.
  split; [exact Hcb|].
  exact (feed_without_handler (send_buffer JFiComm_new 0 demo_jfi 7 [10; 20])
           demo_closed Hcb).
Defined.

Lemma recvMavLoop_body_closed_witness :
  fd_ (obj demo_closed) < 0
  /\ recvMavLoop_body demo_closed
     = (tt, with_trace [EvLock; EvSleep 10; EvUnlock] demo_closed).
Proof.
  assert (Hfd : fd_ (obj demo_closed) < 0) by (cbn; lia).
  split; [exact Hfd|].
  exact (recvMavLoop_body_closed demo_closed Hfd).
Defined.

Lemma recvMavLoop_body_open_witness :
  0 <= fd_ (obj demo_open)
  /\ events_of recvMavLoop_body demo_open = [EvLock; EvUnlock; EvRead 3 3]
  /\ chan0 (snd (recvMavLoop_body demo_open)) = chan0 demo_open.
Proof.
  assert (Hfd : 0 <= fd_ (obj demo_open)) by (cbn; lia).
  split; [exact Hfd|].
  destruct (recvMavLoop_body_open demo_open Hfd)
    as ((mems & Hl & Hev) & Hch).
  split; [|exact Hch].
  rewrite Hev. destruct mems as [|mem mems]; [reflexivity|discriminate Hl].
Defined.

Lemma send_after_failed_init_is_dropped_witness :
  fst (init (Some 5%nat) "/dev/null" 9600 42 43 demo_closed) = false
  /\ events_of (send demo_jfi 7 [10; 20])
       (snd (init (Some 5%nat) "/dev/null" 9600 42 43 demo_closed))
     = [EvLock; EvUnlock; EvLog INFO "PUSH"].
Proof.
  assert (Hf : fst (init (Some 5%nat) "/dev/null" 9600 42 43 demo_closed)
               = false) by reflexivity.
  split; [exact Hf|].
  exact (proj2 (send_after_failed_init_is_dropped demo_closed (Some 5%nat)
                  "/dev/null" 9600 42 43 demo_jfi 7 [10; 20] Hf)).
Defined.

Lemma send_after_init_uses_new_port_and_identity_witness :
  fd_ (obj demo_closed) < 0
  /\ fst (init (Some 5%nat) "/dev/ttyUSB0" 9600 42 43 demo_closed) = true
  /\ exists n l bytes ret,
       k_open "/dev/ttyUSB0" = Some n
       /\ events_of (send demo_jfi 7 [10; 20])
            (snd (init (Some 5%nat) "/dev/ttyUSB0" 9600 42 43 demo_closed))
          = EvLock :: EvWrite (Z.of_nat n) bytes ret :: l
       /\ nth 3 bytes 0 = 42
       /\ nth 4 bytes 0 = 43.
Proof.
  assert (Hfd : fd_ (obj demo_closed) < 0) by (cbn; lia).
  assert (Hr : fst (init (Some 5%nat) "/dev/ttyUSB0" 9600 42 43 demo_closed)
               = true) by reflexivity.
  split; [exact Hfd|]. split; [exact Hr|].
  destruct (send_after_init_uses_new_port_and_identity demo_closed
              (Some 5%nat) "/dev/ttyUSB0" 9600 42 43 demo_jfi 7 [10; 20]
              Hfd Hr) as (n & l & Ho & Hev).
  eexists n, l, _, _. split; [exact Ho|]. split; [exact Hev|].
  split; reflexivity.
Defined.

Lemma init_then_destroy_restores_witness :
  fd_ (obj demo_closed) < 0
  /\ mav_recv_thread_ (obj demo_closed) = false
  /\ open_fds
       (snd (JFiComm_destroy
               (snd (init (Some 5%nat) "/dev/ttyUSB0" 9600 42 43
                       demo_closed))))
     = open_fds demo_closed.
Proof.
  assert (Hfd : fd_ (obj demo_closed) < 0) by (cbn; lia).
  assert (Hth : mav_recv_thread_ (obj demo_closed) = false) by reflexivity.
  split; [exact Hfd|]. split; [exact Hth|].
  exact (proj1 (init_then_destroy_restores demo_closed (Some 5%nat)
                  "/dev/ttyUSB0" 9600 42 43 Hfd Hth)).
Defined.

Lemma port_consistent_preserved_witness :
  port_consistent demo_open
  /\ port_consistent (snd (closePort demo_open))
  /\ port_consistent (snd (recvMavLoop 2 demo_open)).
Proof.
  assert (Hc : port_consistent demo_open) by (right; reflexivity).
  split; [exact Hc|].
  destruct (port_consistent_preserved demo_open None "/dev/ttyUSB0" 9600 1 1
              demo_jfi 7 [10; 20] 2%nat Hc)
    as (_ & _ & Hcl & _ & _ & _ & Hl & _).
  split; [exact Hcl | exact Hl].
Defined.
